(** * server-node-express-typescript: hashed keys and the database service

    A shallow embedding of [src/utils/hash.ts] and of the [DatabaseService]
    class (db.service.ts), together with the properties of the
    identity-deduplication and linkage logic.

    Conventions of the embedding.
    - A JavaScript string is a [string]; the model covers strings of ASCII
      code units, on which [String.prototype.toLowerCase] maps 'A'..'Z' to
      'a'..'z' and leaves every other unit alone.
    - A value that may be [undefined] (a missing request field) or [null]
      (an SQL NULL read back from a row) is a [jsstring = option string].
    - The two digests of node's [crypto] module are not part of the
      repository: they are variables of the section, so every statement
      holds for any pair of digest functions.
    - The PostgreSQL server is modelled by the three tables as lists of rows
      in insertion order, and by one function per SQL text of the service.
      An [async] method is a function from the pool to an outcome (resolved
      or rejected) and the pool afterwards; the pool also records the
      statements issued, in order.
    - The columns [created_at]/[updated_at] are set by the server's clock and
      never read by the service; rows leave them out. *)

From Stdlib Require Import String Ascii List Bool Arith Lia.
Import ListNotations.
Open Scope string_scope.
Open Scope nat_scope.

(** ** JavaScript values *)

Module Js.

(** A string-valued slot that may hold [undefined] or [null]. *)
Definition jsstring := option string.
Definition undefined : jsstring := None.

(** ToBoolean: [undefined], [null] and [''] are falsy. *)
Definition truthy (v : jsstring) : bool :=
  match v with
  | Some s => negb (String.eqb s "")
  | None => false
  end.

(** [v || ''] *)
Definition or_empty (v : jsstring) : string :=
  match v with
  | Some s => if truthy v then s else ""
  | None => ""
  end.

Definition is_upper (c : ascii) : bool :=
  (65 <=? nat_of_ascii c) && (nat_of_ascii c <=? 90).

Definition lower_ascii (c : ascii) : ascii :=
  if is_upper c then ascii_of_nat (nat_of_ascii c + 32) else c.

(** [s.toLowerCase()] *)
Fixpoint toLowerCase (s : string) : string :=
  match s with
  | EmptyString => EmptyString
  | String c r => String (lower_ascii c) (toLowerCase r)
  end.

(** What the runtime or the service can throw. *)
Inductive exn : Type :=
| TypeError (msg : string)        (* raised by the runtime *)
| Error (msg : string)            (* [throw new Error(msg)] *)
| DatabaseError (sqlstate : string). (* a rejected [pool.query] *)

Inductive completion (A : Type) : Type :=
| Return (a : A)
| Throw (e : exn).
Arguments Return {A} a.
Arguments Throw {A} e.

End Js.
Import Js.

(** ** Letter case *)




(** ** The types of [src/types] *)

(** [AddressType]: what a caller hands to the service. *)
Record AddressType : Type := mkAddress {
  a_address_key : jsstring;
  a_country_id : jsstring;
  a_city : jsstring;
  a_state : jsstring;
  a_zip_code : jsstring
}.

(** [UserType] *)
Record UserType : Type := mkUser {
  u_user_key : jsstring;
  u_first_name : jsstring;
  u_last_name : jsstring;
  u_email : jsstring
}.


(** The four fields after normalisation, for comparing addresses field by
    field. *)
Definition normalized_fields (a : AddressType) : list string :=
  map (fun v => toLowerCase (or_empty v))
      [a_country_id a; a_city a; a_state a; a_zip_code a].

(** ** src/utils/hash.ts *)

Section Hash.

(** [crypto.createHash(alg).update(data).digest('hex')] *)
Variable md5 : string -> string.
Variable sha256 : string -> string.

Definition createHash (data : string) : string := sha256 data.

(** The template literal of [createAddressHash], lower-cased. *)
Definition hashString (address : AddressType) : string :=
  toLowerCase (or_empty (a_country_id address)
               ++ or_empty (a_city address)
               ++ or_empty (a_state address)
               ++ or_empty (a_zip_code address))%string.

Definition createAddressHash (address : AddressType) : string :=
  md5 (hashString address).

(** [email.toLowerCase()] is a method call on [email]: on [undefined] the
    runtime raises a TypeError. *)
Definition createUserHash (email : jsstring) : completion string :=
  match email with
  | Some e => Return (createHash (toLowerCase e))
  | None =>
      Throw (TypeError "Cannot read properties of undefined (reading 'toLowerCase')")
  end.

End Hash.

(** ** The database *)

(** Rows as [SELECT *] and [RETURNING *] hand them back. The key columns are
    primary keys, hence never NULL; every other column may read back as
    [null]. (The table listing in README.MD is of an earlier layout: its
    [user_tbl] requires an [address_key] that [createUser] never inserts.
    The service code fixes the columns through its INSERT statements and
    the keys through its ON CONFLICT targets, and nothing more.) *)
Record AddressRow : Type := mkAddressRow {
  address_key : string;
  country_id : jsstring;
  city : jsstring;
  state : jsstring;
  zip_code : jsstring
}.

Record UserRow : Type := mkUserRow {
  user_key : string;
  first_name : jsstring;
  last_name : jsstring;
  email : jsstring
}.

Record LinkRow : Type := mkLinkRow {
  link_user_key : string;
  link_address_key : string
}.

Record Database : Type := mkDatabase {
  address_tbl : list AddressRow;
  user_tbl : list UserRow;
  user_address_link_tbl : list LinkRow
}.

(** SQL [=]: never true when a side is NULL. *)
Definition sql_eq (v w : jsstring) : bool :=
  match v, w with
  | Some s, Some t => String.eqb s t
  | _, _ => false
  end.

Definition same_link (l m : LinkRow) : bool :=
  String.eqb (link_user_key l) (link_user_key m)
  && String.eqb (link_address_key l) (link_address_key m).

(** No two rows of a table agree on a constrained column. *)
Fixpoint unique_on {A : Type} (same : A -> A -> bool) (rows : list A) : bool :=
  match rows with
  | [] => true
  | r :: rest => negb (existsb (same r) rest) && unique_on same rest
  end.

(** Modelled from the spec: the persisted schema, of which no DDL is part of
    the service code. Addresses are keyed by [address_key], users by
    [user_key] with a uniqueness constraint on [email], links by the pair
    (user_key, address_key). *)
Definition schema_ok (db : Database) : bool :=
  unique_on (fun r s => String.eqb (address_key r) (address_key s)) (address_tbl db)
  && unique_on (fun r s => String.eqb (user_key r) (user_key s)) (user_tbl db)
  && unique_on (fun r s => sql_eq (email r) (email s)) (user_tbl db)
  && unique_on same_link (user_address_link_tbl db).

(** Column names of the two tables that the service joins, as the INSERT
    statements of the service list them. *)
Definition user_column (c : string) : option (UserRow -> jsstring) :=
  if String.eqb c "user_key" then Some (fun r => Some (user_key r))
  else if String.eqb c "first_name" then Some first_name
  else if String.eqb c "last_name" then Some last_name
  else if String.eqb c "email" then Some email
  else None.

Definition address_column (c : string) : option (AddressRow -> jsstring) :=
  if String.eqb c "address_key" then Some (fun r => Some (address_key r))
  else if String.eqb c "country_id" then Some country_id
  else if String.eqb c "city" then Some city
  else if String.eqb c "state" then Some state
  else if String.eqb c "zip_code" then Some zip_code
  else None.

(** The SQL texts of the service, with their bound parameters. *)
Inductive Statement : Type :=
| InsertLink (user_key address_key : string)
| SelectAddressByKey (address_key : string)
| InsertAddress (address_key : string) (country_id city state zip_code : jsstring)
| SelectUserByEmail (email : jsstring)
| InsertUser (user_key : string) (first_name last_name email : jsstring)
| SelectUserJoinAddressByKey (user_key : string)
| SelectUserKeyByEmail (email : jsstring)
| DeleteLinksByUserKey (user_key : string)
| DeleteOrphanedAddresses
| DeleteUserByKey (user_key : string)
| UpdateUserNames (email first_name last_name : jsstring).

(** The connection pool: the tables behind it and the statements sent. *)
Record Pool : Type := mkPool {
  tables : Database;
  issued : list Statement
}.

(** An [async] method. Effects on the pool stand when it rejects. *)
Definition Promise (A : Type) : Type := Pool -> completion A * Pool.

Definition resolve {A : Type} (a : A) : Promise A := fun p => (Return a, p).
Definition reject {A : Type} (e : exn) : Promise A := fun p => (Throw e, p).

Definition await {A B : Type} (m : Promise A) (k : A -> Promise B) : Promise B :=
  fun p =>
    match m p with
    | (Return a, p') => k a p'
    | (Throw e, p') => (Throw e, p')
    end.

(** A synchronous call that may throw, inside an [async] body. *)
Definition call {A : Type} (c : completion A) : Promise A := fun p => (c, p).

Notation "x <- m ;; k" := (await m (fun x => k))
  (at level 61, m at next level, right associativity).
Notation "m ;;; k" := (await m (fun _ => k))
  (at level 61, right associativity).

(** [this.pool.query(text, values)]: note the statement, run it. *)
Definition query {A : Type} (q : Statement)
    (run : Database -> completion A * Database) : Promise A :=
  fun p =>
    let '(rows, db) := run (tables p) in
    (rows, {| tables := db; issued := issued p ++ [q] |}).

Module Sql.

(** INSERT INTO user_address_link_tbl ... ON CONFLICT (user_key,
    address_key) DO NOTHING; without RETURNING, so no rows come back. *)
Definition insert_link (uk ak : string) : Promise (list LinkRow) :=
  query (InsertLink uk ak) (fun db =>
    let row := mkLinkRow uk ak in
    if existsb (same_link row) (user_address_link_tbl db)
    then (Return [], db)
    else (Return [],
          mkDatabase (address_tbl db) (user_tbl db)
                     (user_address_link_tbl db ++ [row]))).

(** SELECT * FROM address_tbl WHERE address_key = $1 *)
Definition select_address (k : string) : Promise (list AddressRow) :=
  query (SelectAddressByKey k) (fun db =>
    (Return (filter (fun r => String.eqb (address_key r) k) (address_tbl db)), db)).

(** INSERT INTO address_tbl ... ON CONFLICT (address_key) DO NOTHING
    RETURNING * *)
Definition insert_address (k : string) (cid cty st zip : jsstring)
  : Promise (list AddressRow) :=
  query (InsertAddress k cid cty st zip) (fun db =>
    let row := mkAddressRow k cid cty st zip in
    if existsb (fun r => String.eqb (address_key r) k) (address_tbl db)
    then (Return [], db)
    else (Return [row],
          mkDatabase (address_tbl db ++ [row]) (user_tbl db)
                     (user_address_link_tbl db))).

(** SELECT * FROM user_tbl WHERE email = $1 *)
Definition select_user_by_email (e : jsstring) : Promise (list UserRow) :=
  query (SelectUserByEmail e) (fun db =>
    (Return (filter (fun r => sql_eq (email r) e) (user_tbl db)), db)).

(** INSERT INTO user_tbl ... ON CONFLICT (user_key) DO NOTHING RETURNING *.
    Only a clash on [user_key] is absorbed; a clash on the unique [email]
    alone is a unique_violation (SQLSTATE 23505). *)
Definition insert_user (k : string) (fn ln e : jsstring)
  : Promise (list UserRow) :=
  query (InsertUser k fn ln e) (fun db =>
    let row := mkUserRow k fn ln e in
    if existsb (fun r => String.eqb (user_key r) k) (user_tbl db)
    then (Return [], db)
    else if existsb (fun r => sql_eq (email r) e) (user_tbl db)
    then (Throw (DatabaseError "23505"), db)
    else (Return [row],
          mkDatabase (address_tbl db) (user_tbl db ++ [row])
                     (user_address_link_tbl db))).

(** SELECT * FROM user_tbl join address_tbl
      on user_tbl.use_key = address_tbl.user_key WHERE user_key = $1.
    The server resolves the column names first: a qualified name must be a
    column of its table (else undefined_column, 42703), the unqualified
    [user_key] a column of exactly one of the two (else ambiguous_column,
    42702). *)
Definition select_user_join_address (k : string)
  : Promise (list (UserRow * AddressRow)) :=
  query (SelectUserJoinAddressByKey k) (fun db =>
    match user_column "use_key", address_column "user_key" with
    | Some lhs, Some rhs =>
        let joined :=
          flat_map (fun u =>
            map (fun a => (u, a))
                (filter (fun a => sql_eq (lhs u) (rhs a)) (address_tbl db)))
            (user_tbl db) in
        match user_column "user_key", address_column "user_key" with
        | Some _, Some _ => (Throw (DatabaseError "42702"), db)
        | Some col, None =>
            (Return (filter (fun ua => sql_eq (col (fst ua)) (Some k)) joined), db)
        | None, Some col =>
            (Return (filter (fun ua => sql_eq (col (snd ua)) (Some k)) joined), db)
        | None, None => (Throw (DatabaseError "42703"), db)
        end
    | _, _ => (Throw (DatabaseError "42703"), db)
    end).

(** SELECT user_key FROM public.user_tbl WHERE email = $1 *)
Definition select_user_key (e : jsstring) : Promise (list string) :=
  query (SelectUserKeyByEmail e) (fun db =>
    (Return (map user_key (filter (fun r => sql_eq (email r) e) (user_tbl db))), db)).

(** DELETE FROM public.user_address_link_tbl WHERE user_key = $1 *)
Definition delete_links (k : string) : Promise unit :=
  query (DeleteLinksByUserKey k) (fun db =>
    (Return tt,
     mkDatabase (address_tbl db) (user_tbl db)
       (filter (fun l => negb (String.eqb (link_user_key l) k))
               (user_address_link_tbl db)))).

(** DELETE FROM public.address_tbl WHERE address_key NOT IN
      (SELECT address_key FROM public.user_address_link_tbl) *)
Definition delete_orphaned_addresses : Promise unit :=
  query DeleteOrphanedAddresses (fun db =>
    (Return tt,
     mkDatabase
       (filter (fun r =>
                  existsb (fun l => String.eqb (address_key r) (link_address_key l))
                          (user_address_link_tbl db))
               (address_tbl db))
       (user_tbl db) (user_address_link_tbl db))).

(** DELETE FROM public.user_tbl WHERE user_key = $1 *)
Definition delete_user (k : string) : Promise unit :=
  query (DeleteUserByKey k) (fun db =>
    (Return tt,
     mkDatabase (address_tbl db)
       (filter (fun r => negb (String.eqb (user_key r) k)) (user_tbl db))
       (user_address_link_tbl db))).

(** UPDATE public.user_tbl SET first_name = $2, last_name = $3
    WHERE email = $1 *)
Definition update_user (e fn ln : jsstring) : Promise unit :=
  query (UpdateUserNames e fn ln) (fun db =>
    (Return tt,
     mkDatabase (address_tbl db)
       (map (fun r => if sql_eq (email r) e
                      then mkUserRow (user_key r) fn ln (email r)
                      else r)
            (user_tbl db))
       (user_address_link_tbl db))).

End Sql.

(** ** The DatabaseService class *)

(** [{ email, first_name, last_name }], the value [updateUser] resolves to. *)
Record UpdatedUser : Type := mkUpdatedUser {
  upd_email : jsstring;
  upd_first_name : jsstring;
  upd_last_name : jsstring
}.

Definition msg_not_found : string := "User not found".
Definition msg_deleted : string :=
  "User and associated address data deleted successfully".

Section Service.

Variable md5 : string -> string.
Variable sha256 : string -> string.

(** [rows[0]], which is [undefined] on an empty result; also
    [rows[0] || null], a row object being truthy. *)
Definition first_row {A : Type} (rows : list A) : option A := hd_error rows.

Definition createUserAddressLink (user_key address_key : string)
  : Promise (option LinkRow) :=
  rows <- Sql.insert_link user_key address_key ;;
  resolve (first_row rows).

Definition getAddressById (addressKey : string) : Promise (option AddressRow) :=
  rows <- Sql.select_address addressKey ;;
  resolve (first_row rows).

Definition getUserByEmail (email : jsstring) : Promise (option UserRow) :=
  rows <- Sql.select_user_by_email email ;;
  resolve (first_row rows).

Definition createAddress (addressData : AddressType)
  : Promise (option AddressRow) :=
  let address_key := createAddressHash md5 addressData in
  existingAddress <- getAddressById address_key ;;
  match existingAddress with
  | Some row => resolve (Some row)
  | None =>
      rows <- Sql.insert_address address_key
                (a_country_id addressData) (a_city addressData)
                (a_state addressData) (a_zip_code addressData) ;;
      resolve (first_row rows)
  end.

Definition createUser (userData : UserType) : Promise UserRow :=
  user_key <- call (createUserHash sha256 (u_email userData)) ;;
  existingUser <- getUserByEmail (u_email userData) ;;
  match existingUser with
  | Some row => resolve row
  | None =>
      rows <- Sql.insert_user user_key (u_first_name userData)
                (u_last_name userData) (u_email userData) ;;
      match first_row rows with
      | None => reject (Error "Email already exists")
      | Some row => resolve row
      end
  end.

Definition getUserByKey (userKey : string)
  : Promise (option (UserRow * AddressRow)) :=
  rows <- Sql.select_user_join_address userKey ;;
  resolve (first_row rows).

Definition deleteUserAddressByEmail (email : jsstring) : Promise string :=
  userResult <- Sql.select_user_key email ;;
  let userKey : jsstring := first_row userResult in
  match userKey with
  | Some k =>
      if negb (truthy userKey) then resolve msg_not_found
      else
        Sql.delete_links k ;;;
        Sql.delete_orphaned_addresses ;;;
        Sql.delete_user k ;;;
        resolve msg_deleted
  | None => resolve msg_not_found
  end.

Definition updateUser (email first_name last_name : jsstring)
  : Promise UpdatedUser :=
  if negb (truthy email) || negb (truthy first_name) || negb (truthy last_name)
  then reject (Error "Missing required fields")
  else
    userExists <- Sql.select_user_by_email email ;;
    if length userExists =? 0 then reject (Error "User not found")
    else
      Sql.update_user email first_name last_name ;;;
      resolve (mkUpdatedUser email first_name last_name).

End Service.

(** A pool that has not been used yet. *)
Definition fresh (db : Database) : Pool := mkPool db [].
Definition empty_db : Database := mkDatabase [] [] [].

(** The spec's words for the operations, to state the claims with. *)
Definition stored_user (db : Database) (e : jsstring) : option UserRow :=
  find (fun r => sql_eq (email r) e) (user_tbl db).

Definition stored_address (db : Database) (k : string) : option AddressRow :=
  find (fun r => String.eqb (address_key r) k) (address_tbl db).

Definition stored_user_by_key (db : Database) (k : string) : option UserRow :=
  find (fun r => String.eqb (user_key r) k) (user_tbl db).

(** An address is linked by some user in [db]. *)
Definition linked (db : Database) (k : string) : bool :=
  existsb (fun l => String.eqb (link_address_key l) k) (user_address_link_tbl db).

(** An address is linked by a user other than [uk]. *)
Definition linked_by_other (db : Database) (uk k : string) : bool :=
  existsb (fun l => String.eqb (link_address_key l) k
                    && negb (String.eqb (link_user_key l) uk))
          (user_address_link_tbl db).

(** An address with every missing field replaced by the empty string. *)
Definition fill_missing (a : AddressType) : AddressType :=
  mkAddress (a_address_key a)
            (Some (or_empty (a_country_id a))) (Some (or_empty (a_city a)))
            (Some (or_empty (a_state a))) (Some (or_empty (a_zip_code a))).

(** The row that [createAddress] inserts for [a]. *)
Definition address_row (md5 : string -> string) (a : AddressType) : AddressRow :=
  mkAddressRow (createAddressHash md5 a)
               (a_country_id a) (a_city a) (a_state a) (a_zip_code a).

(** The row that [createUser] inserts for an email [e]. *)
Definition user_row (sha256 : string -> string) (fn ln : jsstring) (e : string)
  : UserRow :=
  mkUserRow (createHash sha256 (toLowerCase e)) fn ln (Some e).

(** A stand-in digest for running the service on concrete inputs. *)
Definition sample_digest (s : string) : string := ("#" ++ s)%string.

(** The reading of "first succeeds, second fails with Conflict" for two
    calls of [createUser] in a row. *)
Definition second_create_conflicts (sha256 : string -> string)
    (userData : UserType) (p : Pool) : Prop :=
  let '(r1, p1) := createUser sha256 userData p in
  let '(r2, _) := createUser sha256 userData p1 in
  (exists row, r1 = Return row) /\ r2 = Throw (Error "Email already exists").

(** The reading of "the hash is always computable" for [createUserHash]. *)
Definition user_hash_computable (sha256 : string -> string) : Prop :=
  forall email : jsstring, exists k, createUserHash sha256 email = Return k.

(** Two calls of [createAddress] in a row, for [a] and then for [b],
    resolve to one stored row, which carries the key of [a]; the second
    call leaves the tables alone; a row stored under the key beforehand is
    the one returned, and then the first call stores nothing either;
    otherwise the first call appends the row of [a]'s fields. *)
Definition same_stored_row (md5 : string -> string) (a b : AddressType)
    (p : Pool) : Prop :=
  let k := createAddressHash md5 a in
  let '(r1, p1) := createAddress md5 a p in
  let '(r2, p2) := createAddress md5 b p1 in
  exists row : AddressRow,
    r1 = Return (Some row) /\ r2 = Return (Some row)
    /\ address_key row = k
    /\ stored_address (tables p1) k = Some row
    /\ tables p2 = tables p1
    /\ (forall old, stored_address (tables p) k = Some old ->
          row = old /\ tables p1 = tables p)
    /\ (stored_address (tables p) k = None ->
          row = address_row md5 a
          /\ address_tbl (tables p1) = (address_tbl (tables p) ++ [row])%list).

(** A method keeps the schema's constraints, whether it resolves or
    rejects. *)
Definition preserves_schema {A : Type} (m : Promise A) : Prop :=
  forall p : Pool,
    schema_ok (tables p) = true -> schema_ok (tables (snd (m p))) = true.

(** All three inputs of [updateUser] are given and non-empty. *)
Definition all_given (e fn ln : jsstring) : bool :=
  truthy e && truthy fn && truthy ln.

(** The user table with both names set on the rows of an email. *)
Definition renamed (e fn ln : jsstring) (rows : list UserRow) : list UserRow :=
  map (fun r => if sql_eq (email r) e
                then mkUserRow (user_key r) fn ln (email r) else r) rows.

(** ** Sample data *)

Definition john : UserType :=
  mkUser None (Some "John") (Some "Doe") (Some "john.doe@example.com").

Definition alice : UserRow :=
  user_row sample_digest (Some "Alice") (Some "Ames") "alice@example.com".
Definition bob : UserRow :=
  user_row sample_digest (Some "Bob") (Some "Burr") "bob@example.com".

Definition own_address : AddressRow :=
  address_row sample_digest
    (mkAddress None (Some "US") (Some "Boston") (Some "MA") (Some "02108")).
Definition shared_address : AddressRow :=
  address_row sample_digest
    (mkAddress None (Some "US") (Some "New York") (Some "NY") (Some "10001")).
Definition unlinked_address : AddressRow :=
  address_row sample_digest
    (mkAddress None (Some "CA") (Some "Toronto") (Some "ON") (Some "M5H")).

(** Alice links her own address and a shared one, Bob the shared one, and
    nobody the third. *)
Definition sample_db : Database :=
  mkDatabase
    [own_address; shared_address; unlinked_address]
    [alice; bob]
    [mkLinkRow (user_key alice) (address_key own_address);
     mkLinkRow (user_key alice) (address_key shared_address);
     mkLinkRow (user_key bob) (address_key shared_address)].

(** ** The rest of the service: the address of a user *)

(** [UserAddressType]: a row of the three-table join, as node-pg builds it
    from [SELECT *]: one property per column name, a later column of the
    same name writing over an earlier one ([user_key] is read last from the
    link table, [address_key] last from [address_tbl]). *)
Record UserAddressRow : Type := mkUserAddressRow {
  ua_user_key : string;
  ua_first_name : jsstring;
  ua_last_name : jsstring;
  ua_email : jsstring;
  ua_address_key : string;
  ua_country_id : jsstring;
  ua_city : jsstring;
  ua_state : jsstring;
  ua_zip_code : jsstring
}.

Definition join_row (u : UserRow) (l : LinkRow) (a : AddressRow)
  : UserAddressRow :=
  mkUserAddressRow (link_user_key l) (first_name u) (last_name u) (email u)
                   (address_key a) (country_id a) (city a) (state a)
                   (zip_code a).

(** SELECT * FROM user_tbl
      join user_address_link_tbl
        on user_tbl.user_key = user_address_link_tbl.user_key
      join address_tbl
        on user_address_link_tbl.address_key = address_tbl.address_key
    WHERE user_tbl.email = $1.
    The text has no ORDER BY, so the order of the rows is the server's
    choice; the rows are listed here user by user, link by link. The
    statement reads only; the pool is handed back as it is, and the record
    of issued statements, kept for the writing methods, gets no entry. *)
Definition select_user_address (e : jsstring) : Promise (list UserAddressRow) :=
  fun p =>
    let db := tables p in
    (Return
       (flat_map (fun u =>
          flat_map (fun l =>
            map (join_row u l)
                (filter (fun a => String.eqb (link_address_key l) (address_key a))
                        (address_tbl db)))
            (filter (fun l => String.eqb (user_key u) (link_user_key l))
                    (user_address_link_tbl db)))
          (filter (fun u => sql_eq (email u) e) (user_tbl db))),
     p).

Definition getUserAddress (email : jsstring) : Promise (option UserAddressRow) :=
  rows <- select_user_address email ;;
  resolve (first_row rows).

(** A stored user with the email, a link of that user and the address of
    that link: what one row of the join is made of. *)
Definition chain (db : Database) (e : jsstring) (u : UserRow) (l : LinkRow)
    (a : AddressRow) : Prop :=
  In u (user_tbl db) /\ In l (user_address_link_tbl db) /\ In a (address_tbl db)
  /\ sql_eq (email u) e = true
  /\ user_key u = link_user_key l
  /\ link_address_key l = address_key a.

(** ** The routes of user.routes.ts *)

(** A handler is the [async] function handed to the router: it resolves to
    the response it sends, and rejects when an awaited call throws outside
    a [try]; what Express does with a rejected handler is not part of the
    repository. As everywhere in this file the server is reachable: a
    statement fails only for what it says, never for a lost connection. *)

(** [req.body] after [express.json()], as the handlers destructure it.
    Each field is a string or missing, as the types of the service expect
    it; a body that carries a number, a boolean, an array or an object in
    one of these fields is outside this model, and so outside every
    statement about a route. *)
Record Body : Type := mkBody {
  b_first_name : jsstring;
  b_last_name : jsstring;
  b_email : jsstring;
  b_country_id : jsstring;
  b_city : jsstring;
  b_state : jsstring;
  b_zip_code : jsstring
}.

(** What a handler passes to [res.json]. *)
Inductive Json : Type :=
| JsonCreated (user : UserRow) (address_tbl : option AddressRow)
              (user_address_link_tbl : option LinkRow)
| JsonError (error : string)
| JsonMessage (message : string)
| JsonUserAddress (row : option UserAddressRow)
| JsonUpdated (user : UpdatedUser).

(** [res.status(code).json(body)] *)
Record Response : Type := mkResponse {
  status : nat;
  body : Json
}.

(** [try { ... } catch (error) { ... }] around awaited calls. *)
Definition try_catch {A : Type} (block : Promise A) (handler : exn -> Promise A)
  : Promise A :=
  fun p =>
    match block p with
    | (Return a, p') => (Return a, p')
    | (Throw e, p') => handler e p'
    end.

(** [error instanceof Error && error.message === 'Email already exists'];
    the message of an error raised by the server is the server's own. *)
Definition is_email_exists (e : exn) : bool :=
  match e with
  | Error msg => String.eqb msg "Email already exists"
  | TypeError msg => String.eqb msg "Email already exists"
  | DatabaseError _ => false
  end.

Section Routes.

Variable md5 : string -> string.
Variable sha256 : string -> string.

(** router.post('/user', ...) *)
Definition post_user (req : Body) : Promise Response :=
  try_catch
    (let address_key :=
       createAddressHash md5
         (mkAddress None (b_country_id req) (b_city req) (b_state req)
                    (b_zip_code req)) in
     user_key <- call (createUserHash sha256 (b_email req)) ;;
     address_tbl <- createAddress md5
                      (mkAddress (Some address_key) (b_country_id req)
                         (b_city req) (b_state req) (b_zip_code req)) ;;
     user <- createUser sha256
               (mkUser (Some user_key) (b_first_name req) (b_last_name req)
                       (b_email req)) ;;
     user_address_link_tbl <- createUserAddressLink user_key address_key ;;
     resolve (mkResponse 201 (JsonCreated user address_tbl user_address_link_tbl)))
    (fun error =>
       if is_email_exists error
       then resolve (mkResponse 409 (JsonError "Email already exists"))
       else resolve (mkResponse 500 (JsonError "Error creating user"))).

(** router.delete('/user', ...) *)
Definition delete_user (req : Body) : Promise Response :=
  result <- deleteUserAddressByEmail (b_email req) ;;
  resolve (mkResponse 200 (JsonMessage result)).

(** router.get('/user', ...) *)
Definition get_user (req : Body) : Promise Response :=
  result <- getUserAddress (b_email req) ;;
  resolve (mkResponse 200 (JsonUserAddress result)).

(** router.put('/user', ...): no try/catch, a rejection of [updateUser]
    leaves the handler before it answers. *)
Definition put_user (req : Body) : Promise Response :=
  result <- updateUser (b_email req) (b_first_name req) (b_last_name req) ;;
  resolve (mkResponse 200 (JsonUpdated result)).

End Routes.

(** ** Consistency of the stored data *)

(** Every user row is stored under the hash of its email, every address row
    under the hash of its four fields. *)
Definition content_addressed (md5 sha256 : string -> string) (db : Database)
  : bool :=
  forallb (fun r => match email r with
                    | Some e => String.eqb (user_key r)
                                           (createHash sha256 (toLowerCase e))
                    | None => false
                    end) (user_tbl db)
  && forallb (fun r => String.eqb (address_key r)
                         (createAddressHash md5
                            (mkAddress None (country_id r) (city r) (state r)
                                       (zip_code r))))
             (address_tbl db).

(** Every link names a stored user and a stored address. *)
Definition links_resolve (db : Database) : bool :=
  forallb (fun l =>
             existsb (fun r => String.eqb (user_key r) (link_user_key l))
                     (user_tbl db)
             && existsb (fun r => String.eqb (address_key r) (link_address_key l))
                        (address_tbl db))
          (user_address_link_tbl db).

Definition consistent (md5 sha256 : string -> string) (db : Database) : bool :=
  schema_ok db && content_addressed md5 sha256 db && links_resolve db.

(** A method keeps a property of the tables, whether it resolves or
    rejects. *)
Definition preserves {A : Type} (inv : Database -> bool) (m : Promise A) : Prop :=
  forall p : Pool, inv (tables p) = true -> inv (tables (snd (m p))) = true.

(** The key under which POST /user stores the address of a request, and
    the key under which it stores the user of an email. *)
Definition request_address_key (md5 : string -> string) (req : Body) : string :=
  createAddressHash md5
    (mkAddress None (b_country_id req) (b_city req) (b_state req) (b_zip_code req)).

Definition request_address (md5 : string -> string) (req : Body) : AddressType :=
  mkAddress (Some (request_address_key md5 req)) (b_country_id req)
            (b_city req) (b_state req) (b_zip_code req).

Definition email_key (sha256 : string -> string) (e : string) : string :=
  createHash sha256 (toLowerCase e).

(** The request of the example in index.ts. *)
Definition john_request : Body :=
  mkBody (Some "John") (Some "Doe") (Some "john.doe@example.com")
         (Some "US") (Some "New York") (Some "NY") (Some "10001").

(** A request without an email, and a database that stores John under
    another spelling of his email. *)
Definition no_email_request : Body :=
  mkBody (Some "John") (Some "Doe") None
         (Some "US") (Some "New York") (Some "NY") (Some "10001").

Definition other_spelling : UserRow :=
  user_row sample_digest (Some "John") (Some "Doe") "John.Doe@Example.com".

Definition other_spelling_db : Database := mkDatabase [] [other_spelling] [].

(** * Properties *)

(** ** Letter case and the two hashes *)

Lemma or_empty_Some (s : string) : or_empty (Some s) = s.
Proof.
  unfold or_empty, truthy. destruct (String.eqb_spec s ""); simpl; congruence.
Qed.

Lemma truthy_Some (v : jsstring) :
  truthy v = true -> exists s, v = Some s /\ s <> "".
Proof.
  destruct v as [s|]; simpl; [|discriminate].
  destruct (String.eqb_spec s ""); simpl; [discriminate|].
  intros _. now exists s.
Qed.










Section HashProperties.

Variable md5 : string -> string.
Variable sha256 : string -> string.



(** The guard of [createAddressHash]: a missing field counts as the empty
    string. *)
Lemma createAddressHash_missing_fields (a : AddressType) :
  createAddressHash md5 a = createAddressHash md5 (fill_missing a).
Proof.
  unfold createAddressHash, hashString, fill_missing.
  cbn [a_country_id a_city a_state a_zip_code].
  now rewrite !or_empty_Some.
Qed.

(** C6: the address key is computed whatever is missing (an address with no
    field at all gets the digest of the empty string), but the user key of
    a missing email is not: [createUserHash], which lacks the guard of its
    sibling, throws a TypeError there, where the claim says that the hash
    is always computable and does not raise. *)
Theorem createUserHash_missing_email_throws :
  createAddressHash md5 (mkAddress None None None None None) = md5 ""
  /\ (exists msg, createUserHash sha256 undefined = Throw (TypeError msg))
  /\ ~ user_hash_computable sha256.
Proof.
  split; [reflexivity|]. split; [eexists; reflexivity|].
  intros H. destruct (H undefined) as [k Hk]. discriminate Hk.
Qed.

End HashProperties.



(** ** Rows and tables *)

Lemma first_row_filter {A : Type} (f : A -> bool) (rows : list A) :
  first_row (filter f rows) = find f rows.
Proof.
  induction rows as [|r rows IH]; simpl; [reflexivity|].
  destruct (f r); [reflexivity | exact IH].
Qed.

Lemma find_none_existsb {A : Type} (f : A -> bool) (rows : list A) :
  find f rows = None <-> existsb f rows = false.
Proof.
  induction rows as [|r rows IH]; simpl; [tauto|].
  destruct (f r); simpl; [split; discriminate | exact IH].
Qed.

Lemma find_app_new {A : Type} (f : A -> bool) (rows : list A) (r : A) :
  find f rows = None -> f r = true -> find f (rows ++ [r]) = Some r.
Proof.
  induction rows as [|x rows IH]; simpl; intros Hn Hr.
  - now rewrite Hr.
  - destruct (f x); [discriminate | auto].
Qed.

Lemma find_filter_none {A : Type} (f g : A -> bool) (rows : list A) :
  (forall r, In r rows -> f r = true -> g r = false) ->
  find f (filter g rows) = None.
Proof.
  induction rows as [|x rows IH]; simpl; intros H; [reflexivity|].
  destruct (g x) eqn:Eg; simpl.
  - destruct (f x) eqn:Ef.
    + rewrite (H x (or_introl eq_refl) Ef) in Eg. discriminate.
    + apply IH. intros r Hr. apply H. now right.
  - apply IH. intros r Hr. apply H. now right.
Qed.

(** In a table that is unique on [same], two rows that agree are one row. *)
Lemma unique_on_eq {A : Type} (same : A -> A -> bool) (rows : list A) :
  (forall x y, same x y = same y x) ->
  unique_on same rows = true ->
  forall x y, In x rows -> In y rows -> same x y = true -> x = y.
Proof.
  intros Hsym. induction rows as [|r rows IH]; simpl; [tauto|].
  rewrite andb_true_iff, negb_true_iff. intros [Hr Hu] x y Hx Hy Hxy.
  assert (Hnot : forall z, In z rows -> same r z = false).
  { intros z Hz. destruct (same r z) eqn:E; [|reflexivity].
    assert (existsb (same r) rows = true) by (apply existsb_exists; eauto).
    congruence. }
  destruct Hx as [<- | Hx], Hy as [<- | Hy]; auto.
  - rewrite (Hnot _ Hy) in Hxy. discriminate.
  - rewrite Hsym, (Hnot _ Hx) in Hxy. discriminate.
Qed.

Lemma sql_eq_sym (v w : jsstring) : sql_eq v w = sql_eq w v.
Proof. destruct v, w; simpl; auto using String.eqb_sym. Qed.

Lemma sql_eq_true (v w : jsstring) :
  sql_eq v w = true -> exists s, v = Some s /\ w = Some s.
Proof.
  destruct v as [s|], w as [t|]; simpl; try discriminate.
  intros H. apply String.eqb_eq in H. subst. eauto.
Qed.

(** ** The address repository *)

Section AddressProperties.

Variable md5 : string -> string.

Lemma getAddressById_run (k : string) (p : Pool) :
  getAddressById k p
  = (Return (stored_address (tables p) k),
     mkPool (tables p) (issued p ++ [SelectAddressByKey k])).
Proof.
  unfold getAddressById, await, Sql.select_address, query, resolve. simpl.
  now rewrite first_row_filter.
Qed.

(** An address already stored under the key is handed back as it is. *)
Lemma createAddress_found (a : AddressType) (p : Pool) (row : AddressRow) :
  stored_address (tables p) (createAddressHash md5 a) = Some row ->
  createAddress md5 a p
  = (Return (Some row),
     mkPool (tables p)
            (issued p ++ [SelectAddressByKey (createAddressHash md5 a)])).
Proof.
  intros H. unfold createAddress, await. now rewrite getAddressById_run, H.
Qed.

(** Otherwise one row is appended, and handed back. *)
Lemma createAddress_new (a : AddressType) (p : Pool) :
  stored_address (tables p) (createAddressHash md5 a) = None ->
  createAddress md5 a p
  = (Return (Some (address_row md5 a)),
     mkPool (mkDatabase (address_tbl (tables p) ++ [address_row md5 a])
                        (user_tbl (tables p))
                        (user_address_link_tbl (tables p)))
            ((issued p ++ [SelectAddressByKey (createAddressHash md5 a)])
             ++ [InsertAddress (createAddressHash md5 a) (a_country_id a)
                   (a_city a) (a_state a) (a_zip_code a)])).
Proof.
  intros H. unfold createAddress, await. rewrite getAddressById_run, H.
  unfold Sql.insert_address, query, resolve. simpl.
  apply find_none_existsb in H. unfold stored_address in H. now rewrite H.
Qed.

Lemma stored_after_new (a : AddressType) (db : Database) :
  stored_address db (createAddressHash md5 a) = None ->
  stored_address
    (mkDatabase (address_tbl db ++ [address_row md5 a]) (user_tbl db)
                (user_address_link_tbl db))
    (createAddressHash md5 a)
  = Some (address_row md5 a).
Proof.
  intros H. unfold stored_address. simpl. apply find_app_new; [exact H|].
  simpl. apply String.eqb_refl.
Qed.

Lemma createAddress_same_key (p : Pool) (a b : AddressType) :
  createAddressHash md5 a = createAddressHash md5 b ->
  same_stored_row md5 a b p.
Proof.
  intros Hk. unfold same_stored_row.
  destruct (stored_address (tables p) (createAddressHash md5 a)) as [old|] eqn:Hold.
  - rewrite (createAddress_found a p old Hold). cbv beta iota.
    rewrite (createAddress_found b _ old) by (simpl; now rewrite <- Hk).
    exists old. simpl. repeat split; try congruence.
    unfold stored_address in Hold. apply find_some in Hold.
    now apply String.eqb_eq.
  - rewrite (createAddress_new a p Hold). cbv beta iota.
    pose proof (stored_after_new a (tables p) Hold) as Hnew.
    rewrite (createAddress_found b _ (address_row md5 a))
      by (simpl; now rewrite <- Hk).
    exists (address_row md5 a). simpl. repeat split; try congruence.
Qed.


(** C10: there are two addresses whose normalised fields differ (the
    characters "usany" split as "us"+"any" and as "usa"+"ny") and which
    have one key; on every database, creating one and then the other
    resolves both calls to one stored row, and the second call stores
    nothing. *)
Theorem createAddress_split_collision :
  exists a b : AddressType,
    normalized_fields a <> normalized_fields b
    /\ hashString a = hashString b
    /\ createAddressHash md5 a = createAddressHash md5 b
    /\ forall p : Pool, same_stored_row md5 a b p.
Proof.
  set (a := mkAddress None (Some "US") (Some "Any") (Some "NY") (Some "10001")).
  set (b := mkAddress None (Some "USA") (Some "NY") (Some "NY") (Some "10001")).
  exists a, b.
  assert (Hk : createAddressHash md5 a = createAddressHash md5 b) by reflexivity.
  split; [discriminate|]. split; [reflexivity|]. split; [exact Hk|].
  intros p. now apply createAddress_same_key.
Qed.

End AddressProperties.


(** ** The user repository *)

Section UserProperties.

Variable sha256 : string -> string.

Lemma getUserByEmail_run (e : jsstring) (p : Pool) :
  getUserByEmail e p
  = (Return (stored_user (tables p) e),
     mkPool (tables p) (issued p ++ [SelectUserByEmail e])).
Proof.
  unfold getUserByEmail, await, Sql.select_user_by_email, query, resolve.
  simpl. now rewrite first_row_filter.
Qed.

Lemma createUser_found (uk fn ln : jsstring) (e : string) (p : Pool)
    (row : UserRow) :
  stored_user (tables p) (Some e) = Some row ->
  createUser sha256 (mkUser uk fn ln (Some e)) p
  = (Return row, mkPool (tables p) (issued p ++ [SelectUserByEmail (Some e)])).
Proof.
  intros H. unfold createUser, await, call.
  cbn [u_email u_first_name u_last_name createUserHash].
  now rewrite getUserByEmail_run, H.
Qed.

Lemma createUser_conflict (uk fn ln : jsstring) (e : string) (p : Pool)
    (other : UserRow) :
  stored_user (tables p) (Some e) = None ->
  stored_user_by_key (tables p) (createHash sha256 (toLowerCase e)) = Some other ->
  createUser sha256 (mkUser uk fn ln (Some e)) p
  = (Throw (Error "Email already exists"),
     mkPool (tables p)
       ((issued p ++ [SelectUserByEmail (Some e)])
        ++ [InsertUser (createHash sha256 (toLowerCase e)) fn ln (Some e)])).
Proof.
  intros He Hk. unfold createUser, await, call.
  cbn [u_email u_first_name u_last_name createUserHash].
  rewrite getUserByEmail_run, He.
  unfold Sql.insert_user, query. simpl.
  destruct (existsb _ (user_tbl (tables p))) eqn:E; [reflexivity|].
  apply find_none_existsb in E. unfold stored_user_by_key in Hk. congruence.
Qed.

Lemma createUser_new (uk fn ln : jsstring) (e : string) (p : Pool) :
  stored_user (tables p) (Some e) = None ->
  stored_user_by_key (tables p) (createHash sha256 (toLowerCase e)) = None ->
  createUser sha256 (mkUser uk fn ln (Some e)) p
  = (Return (user_row sha256 fn ln e),
     mkPool (mkDatabase (address_tbl (tables p))
                        (user_tbl (tables p) ++ [user_row sha256 fn ln e])
                        (user_address_link_tbl (tables p)))
       ((issued p ++ [SelectUserByEmail (Some e)])
        ++ [InsertUser (createHash sha256 (toLowerCase e)) fn ln (Some e)])).
Proof.
  intros He Hk. unfold createUser, await, call.
  cbn [u_email u_first_name u_last_name createUserHash].
  rewrite getUserByEmail_run, He.
  unfold Sql.insert_user, query. simpl.
  apply find_none_existsb in He, Hk. simpl in He, Hk.
  now rewrite Hk, He.
Qed.

Lemma stored_user_after_new (fn ln : jsstring) (e : string) (db : Database) :
  stored_user db (Some e) = None ->
  stored_user
    (mkDatabase (address_tbl db) (user_tbl db ++ [user_row sha256 fn ln e])
                (user_address_link_tbl db))
    (Some e)
  = Some (user_row sha256 fn ln e).
Proof.
  intros H. unfold stored_user. simpl. apply find_app_new; [exact H|].
  simpl. apply String.eqb_refl.
Qed.

(** C4: [createUser] first looks the email up; a stored user with that
    email is returned as it is and nothing is written; the call fails
    with "Email already exists" exactly when the lookup finds nothing and
    the insert comes back empty because the key is taken; that is its
    only failure; and with neither email nor key stored, the new row is
    appended and returned. *)
Theorem createUser_contract (p : Pool) (uk fn ln : jsstring) (e : string) :
  let k := createHash sha256 (toLowerCase e) in
  let '(r, p') := createUser sha256 (mkUser uk fn ln (Some e)) p in
  (exists rest, issued p' = (issued p ++ SelectUserByEmail (Some e) :: rest)%list)
  /\ (forall row, stored_user (tables p) (Some e) = Some row ->
        r = Return row /\ tables p' = tables p
        /\ issued p' = (issued p ++ [SelectUserByEmail (Some e)])%list)
  /\ (r = Throw (Error "Email already exists") <->
        stored_user (tables p) (Some e) = None
        /\ stored_user_by_key (tables p) k <> None)
  /\ (forall x, r = Throw x ->
        x = Error "Email already exists" /\ tables p' = tables p)
  /\ (stored_user (tables p) (Some e) = None ->
      stored_user_by_key (tables p) k = None ->
      r = Return (user_row sha256 fn ln e)
      /\ user_tbl (tables p') = (user_tbl (tables p) ++ [user_row sha256 fn ln e])%list).
Proof.
  intros k.
  destruct (stored_user (tables p) (Some e)) as [row|] eqn:He.
  - rewrite (createUser_found uk fn ln e p row He). simpl.
    split; [now exists []|]. split; [intros ? [= <-]; auto|].
    split; [split; [easy | intros [? _]; discriminate]|].
    split; [easy | easy].
  - destruct (stored_user_by_key (tables p) k) as [other|] eqn:Hk; subst k.
    + rewrite (createUser_conflict uk fn ln e p other He Hk). simpl.
      split; [eexists; rewrite <- app_assoc; reflexivity|]. split; [easy|].
      split; [split; [intros _; split; [reflexivity | easy] | reflexivity]|].
      split; [intros ? [= <-]; auto | easy].
    + rewrite (createUser_new uk fn ln e p He Hk). simpl.
      split; [eexists; rewrite <- app_assoc; reflexivity|]. split; [easy|].
      split; [split; [easy | intros [_ []]; reflexivity]|].
      split; [easy | auto].
Qed.

(** C3, amended: of two calls in a row with one email, the first
    succeeds exactly when the email is stored already or its key is
    free; and when it succeeds, the second resolves to the same stored
    row, without error, and writes nothing. *)
Theorem createUser_twice (p : Pool) (uk fn ln : jsstring) (e : string) :
  let k := createHash sha256 (toLowerCase e) in
  let '(r1, p1) := createUser sha256 (mkUser uk fn ln (Some e)) p in
  let '(r2, p2) := createUser sha256 (mkUser uk fn ln (Some e)) p1 in
  ((exists row, r1 = Return row) <->
     stored_user (tables p) (Some e) <> None
     \/ stored_user_by_key (tables p) k = None)
  /\ (forall row, r1 = Return row ->
        r2 = Return row /\ tables p2 = tables p1
        /\ stored_user (tables p1) (Some e) = Some row).
Proof.
  intros k.
  destruct (stored_user (tables p) (Some e)) as [row0|] eqn:He.
  - rewrite (createUser_found uk fn ln e p row0 He). cbv beta iota.
    rewrite (createUser_found uk fn ln e _ row0) by exact He. simpl.
    split; [split; [left; discriminate | eauto]|].
    intros row [= <-]. auto.
  - destruct (stored_user_by_key (tables p) k) as [other|] eqn:Hk; subst k.
    + rewrite (createUser_conflict uk fn ln e p other He Hk). cbv beta iota.
      destruct (createUser sha256 _ _) as [r2 p2].
      split; [|discriminate].
      split; [intros [? ?]; discriminate | intros [H | H]; congruence].
    + rewrite (createUser_new uk fn ln e p He Hk).
      pose proof (stored_user_after_new fn ln e (tables p) He) as Hnew.
      cbv beta iota.
      rewrite (createUser_found uk fn ln e _ (user_row sha256 fn ln e))
        by exact Hnew.
      simpl.
      split; [split; [auto | eauto]|].
      intros row [= <-]. auto.
Qed.

End UserProperties.

(** C3 as stated fails: on an empty database the second of two calls with
    one email does not fail with a conflict. *)
Lemma second_create_returns_existing :
  ~ second_create_conflicts sample_digest john (fresh empty_db).
Proof.
  unfold second_create_conflicts. vm_compute. intros [_ H]. discriminate H.
Qed.

(** C3, amended, on an empty database. *)
Lemma createUser_twice_witness :
  exists row : UserRow,
    fst (createUser sample_digest john (fresh empty_db)) = Return row
    /\ fst (createUser sample_digest john
              (snd (createUser sample_digest john (fresh empty_db))))
       = Return row.
Proof.
  pose proof (createUser_twice sample_digest (fresh empty_db) None
                (Some "John") (Some "Doe") "john.doe@example.com") as H.
  revert H. vm_compute. intros [_ H].
  eexists. split; [reflexivity|]. apply (H _ eq_refl).
Defined.

(** C4, on a database that stores the email in another letter case: the
    lookup by email finds nothing, the key is taken, the call fails. *)
Lemma createUser_contract_witness :
  let db := mkDatabase []
              [user_row sample_digest (Some "John") (Some "Doe") "John.Doe@Example.com"]
              [] in
  fst (createUser sample_digest john (fresh db))
  = Throw (Error "Email already exists").
Proof.
  pose proof (createUser_contract sample_digest
                (fresh (mkDatabase []
                   [user_row sample_digest (Some "John") (Some "Doe")
                      "John.Doe@Example.com"] []))
                None (Some "John") (Some "Doe") "john.doe@example.com") as H.
  cbv zeta in H. unfold john. cbv zeta.
  destruct (createUser _ _ _) as [r p'].
  destruct H as (_ & _ & [_ H] & _). simpl. apply H.
  split; [reflexivity | discriminate].
Defined.

(** ** Deleting a user with its links and orphaned addresses *)

Lemma first_row_map_filter {A B : Type} (g : A -> B) (f : A -> bool)
    (rows : list A) :
  first_row (map g (filter f rows)) = option_map g (find f rows).
Proof.
  induction rows as [|r rows IH]; simpl; [reflexivity|].
  destruct (f r); [reflexivity | exact IH].
Qed.

Lemma existsb_filter {A : Type} (f g : A -> bool) (rows : list A) :
  existsb f (filter g rows) = existsb (fun x => f x && g x) rows.
Proof.
  induction rows as [|r rows IH]; simpl; [reflexivity|].
  destruct (g r); simpl; rewrite IH.
  - now rewrite andb_true_r.
  - now rewrite andb_false_r.
Qed.

(** The test of the orphan sweep, run after the user's links are gone, is
    "linked by some other user" on the tables as they were before. *)
Lemma sweep_test (db : Database) (uk : string) (a : AddressRow) :
  existsb (fun l => String.eqb (address_key a) (link_address_key l))
          (filter (fun l => negb (String.eqb (link_user_key l) uk))
                  (user_address_link_tbl db))
  = linked_by_other db uk (address_key a).
Proof.
  rewrite existsb_filter. unfold linked_by_other.
  induction (user_address_link_tbl db) as [|l ls IH]; simpl; [reflexivity|].
  now rewrite IH, (String.eqb_sym (address_key a)).
Qed.

Lemma linked_by_other_linked (db : Database) (uk k : string) :
  linked_by_other db uk k = true -> linked db k = true.
Proof.
  unfold linked_by_other, linked. rewrite !existsb_exists.
  intros (l & Hl & H). apply andb_true_iff in H. exists l. tauto.
Qed.

Lemma delete_no_user (e : jsstring) (p : Pool) :
  stored_user (tables p) e = None ->
  deleteUserAddressByEmail e p
  = (Return msg_not_found,
     mkPool (tables p) (issued p ++ [SelectUserKeyByEmail e])).
Proof.
  intros H. unfold deleteUserAddressByEmail, await, Sql.select_user_key, query.
  cbv beta iota zeta. cbn [tables issued].
  rewrite first_row_map_filter. unfold stored_user in H. now rewrite H.
Qed.

(** A stored key that is the empty string is falsy in [if (!userKey)]. *)
Lemma delete_falsy_key (e : jsstring) (p : Pool) (u : UserRow) :
  stored_user (tables p) e = Some u -> user_key u = "" ->
  deleteUserAddressByEmail e p
  = (Return msg_not_found,
     mkPool (tables p) (issued p ++ [SelectUserKeyByEmail e])).
Proof.
  intros H Hk. unfold deleteUserAddressByEmail, await, Sql.select_user_key, query.
  cbv beta iota zeta. cbn [tables issued].
  rewrite first_row_map_filter. unfold stored_user in H. rewrite H. simpl.
  now rewrite Hk.
Qed.

Lemma delete_found (e : jsstring) (p : Pool) (u : UserRow) :
  stored_user (tables p) e = Some u -> user_key u <> "" ->
  deleteUserAddressByEmail e p
  = (Return msg_deleted,
     mkPool
       (mkDatabase
          (filter (fun a => linked_by_other (tables p) (user_key u) (address_key a))
                  (address_tbl (tables p)))
          (filter (fun r => negb (String.eqb (user_key r) (user_key u)))
                  (user_tbl (tables p)))
          (filter (fun l => negb (String.eqb (link_user_key l) (user_key u)))
                  (user_address_link_tbl (tables p))))
       (issued p ++ [SelectUserKeyByEmail e; DeleteLinksByUserKey (user_key u);
                     DeleteOrphanedAddresses; DeleteUserByKey (user_key u)])).
Proof.
  intros H Hk. unfold deleteUserAddressByEmail, await, Sql.select_user_key, query.
  cbv beta iota zeta. cbn [tables issued].
  rewrite first_row_map_filter. unfold stored_user in H. rewrite H. simpl.
  destruct (String.eqb_spec (user_key u) ""); [contradiction|]. simpl.
  rewrite <- !app_assoc. unfold resolve. simpl.
  now rewrite (filter_ext _ _ (sweep_test (tables p) (user_key u))).
Qed.

(** C5: for a stored email (whose user key is a non-empty string) the
    cascade resolves to the success message after issuing, in this order,
    the key lookup, the deletion of the user's links, the sweep of
    addresses without a link, and the deletion of the user row. Links of
    other users stay; an address stays exactly when another user links
    it, whoever held it before: one that only the deleted user linked is
    removed, one that nobody linked is removed too, one that another user
    links survives. *)
Theorem deleteUser_cascade (p : Pool) (e : jsstring) (u : UserRow) :
  stored_user (tables p) e = Some u ->
  user_key u <> "" ->
  let k := user_key u in
  let db := tables p in
  let '(r, p') := deleteUserAddressByEmail e p in
  r = Return msg_deleted
  /\ issued p'
     = (issued p ++ [SelectUserKeyByEmail e; DeleteLinksByUserKey k;
                     DeleteOrphanedAddresses; DeleteUserByKey k])%list
  /\ (forall l, In l (user_address_link_tbl (tables p')) <->
        In l (user_address_link_tbl db) /\ link_user_key l <> k)
  /\ (forall a, In a (address_tbl (tables p')) <->
        In a (address_tbl db) /\ linked_by_other db k (address_key a) = true)
  /\ (forall r, In r (user_tbl (tables p')) <->
        In r (user_tbl db) /\ user_key r <> k)
  /\ (forall a, linked db (address_key a) = true ->
        linked_by_other db k (address_key a) = false ->
        ~ In a (address_tbl (tables p')))
  /\ (forall a, linked db (address_key a) = false ->
        ~ In a (address_tbl (tables p')))
  /\ (forall a, In a (address_tbl db) ->
        linked_by_other db k (address_key a) = true ->
        In a (address_tbl (tables p'))).
Proof.
  intros H Hk k db. rewrite (delete_found e p u H Hk).
  cbn [tables issued address_tbl user_tbl user_address_link_tbl]. fold k db.
  assert (Hne : forall s, negb (String.eqb s k) = true <-> s <> k).
  { intros s. rewrite negb_true_iff. apply String.eqb_neq. }
  assert (Ha : forall a,
             In a (filter (fun a => linked_by_other db k (address_key a))
                          (address_tbl db)) <->
             In a (address_tbl db) /\ linked_by_other db k (address_key a) = true)
    by (intros a; apply filter_In).
  split; [reflexivity|]. split; [reflexivity|].
  split; [intros l; now rewrite filter_In, Hne|].
  split; [exact Ha|].
  split; [intros r; now rewrite filter_In, Hne|].
  split; [|split].
  - intros a _ Hno Hin. apply Ha in Hin. destruct Hin. congruence.
  - intros a Hno Hin. apply Ha in Hin. destruct Hin as [_ Hin].
    apply linked_by_other_linked in Hin. congruence.
  - intros a Hin Hl. now apply Ha.
Qed.


(** The email column is unique, so the rows that hold a stored email all
    carry one key. *)
Lemma stored_email_key (db : Database) (e : jsstring) (u r : UserRow) :
  schema_ok db = true ->
  stored_user db e = Some u ->
  In r (user_tbl db) -> sql_eq (email r) e = true ->
  user_key r = user_key u.
Proof.
  unfold schema_ok, stored_user. rewrite !andb_true_iff.
  intros [[[_ _] Hmail] _] Hu Hr He.
  apply find_some in Hu. destruct Hu as [Hin Hue].
  apply sql_eq_true in He, Hue.
  destruct He as (s & Hrs & ->), Hue as (t & Hut & [= <-]).
  f_equal.
  apply (unique_on_eq _ _ (fun x y => sql_eq_sym (email x) (email y)) Hmail);
    auto.
  rewrite Hrs, Hut. simpl. apply String.eqb_refl.
Qed.

Lemma delete_removes_email (db : Database) (e : jsstring) (u : UserRow) :
  schema_ok db = true ->
  stored_user db e = Some u ->
  find (fun r => sql_eq (email r) e)
       (filter (fun r => negb (String.eqb (user_key r) (user_key u))) (user_tbl db))
  = None.
Proof.
  intros Hok Hu. apply find_filter_none. intros r Hr He.
  rewrite (stored_email_key db e u r Hok Hu Hr He).
  now rewrite String.eqb_refl.
Qed.

(** C7: with no stored user for the email the cascade resolves to "User not
    found" and leaves the three tables as they are; and on tables that
    respect the schema, of two cascades in a row for one email neither
    rejects and the second resolves to "User not found", again without
    touching the tables. *)
Theorem deleteUser_not_found (p : Pool) (e : jsstring) :
  (stored_user (tables p) e = None ->
     let '(r, p') := deleteUserAddressByEmail e p in
     r = Return msg_not_found /\ tables p' = tables p)
  /\ (schema_ok (tables p) = true ->
      let '(r1, p1) := deleteUserAddressByEmail e p in
      let '(r2, p2) := deleteUserAddressByEmail e p1 in
      (exists m, r1 = Return m)
      /\ r2 = Return msg_not_found /\ tables p2 = tables p1).
Proof.
  split.
  - intros H. now rewrite (delete_no_user e p H).
  - intros Hok. destruct (stored_user (tables p) e) as [u|] eqn:Hu.
    + destruct (String.eqb_spec (user_key u) "") as [Hk | Hk].
      * rewrite (delete_falsy_key e p u Hu Hk). cbv beta iota.
        rewrite (delete_falsy_key e _ u) by assumption. eauto.
      * rewrite (delete_found e p u Hu Hk). cbv beta iota.
        rewrite delete_no_user
          by (exact (delete_removes_email (tables p) e u Hok Hu)).
        eauto.
    + rewrite (delete_no_user e p Hu). cbv beta iota.
      rewrite delete_no_user by assumption. eauto.
Qed.

(** ** Updating the names *)

Lemma no_rows_find {A : Type} (f : A -> bool) (rows : list A) :
  (length (filter f rows) =? 0) = true <-> find f rows = None.
Proof.
  induction rows as [|r rows IH]; simpl; [tauto|].
  destruct (f r); simpl; [split; discriminate | exact IH].
Qed.

Lemma updateUser_missing (e fn ln : jsstring) (p : Pool) :
  all_given e fn ln = false ->
  updateUser e fn ln p = (Throw (Error "Missing required fields"), p).
Proof.
  unfold all_given, updateUser. intros H.
  replace (negb (truthy e) || negb (truthy fn) || negb (truthy ln))
    with (negb (truthy e && truthy fn && truthy ln))
    by (now rewrite !negb_andb).
  now rewrite H.
Qed.

Lemma updateUser_given (e fn ln : jsstring) (p : Pool) :
  all_given e fn ln = true ->
  updateUser e fn ln p
  = match stored_user (tables p) e with
    | None => (Throw (Error "User not found"),
               mkPool (tables p) (issued p ++ [SelectUserByEmail e]))
    | Some _ =>
        (Return (mkUpdatedUser e fn ln),
         mkPool (mkDatabase (address_tbl (tables p))
                            (renamed e fn ln (user_tbl (tables p)))
                            (user_address_link_tbl (tables p)))
                (issued p ++ [SelectUserByEmail e; UpdateUserNames e fn ln]))
    end.
Proof.
  unfold all_given, updateUser. intros H.
  replace (negb (truthy e) || negb (truthy fn) || negb (truthy ln))
    with (negb (truthy e && truthy fn && truthy ln))
    by (now rewrite !negb_andb).
  rewrite H. simpl. unfold await, Sql.select_user_by_email, query.
  cbv beta iota zeta. cbn [tables issued]. unfold stored_user.
  destruct (find _ (user_tbl (tables p))) eqn:Hf.
  - destruct (length _ =? 0) eqn:Hl.
    + apply no_rows_find in Hl. congruence.
    + unfold Sql.update_user, query, resolve. simpl.
      now rewrite <- app_assoc.
  - apply no_rows_find in Hf. now rewrite Hf.
Qed.

Lemma renamed_columns (e fn ln : jsstring) (rows : list UserRow) :
  map user_key (renamed e fn ln rows) = map user_key rows
  /\ map email (renamed e fn ln rows) = map email rows.
Proof.
  unfold renamed. rewrite !map_map. split; apply map_ext; intros r;
    now destruct (sql_eq (email r) e).
Qed.

(** C8: [updateUser] rejects with "Missing required fields", before it
    sends anything, whenever one of the three inputs is missing or empty;
    with all three given and no stored user for the email it rejects with
    "User not found" and changes nothing; it resolves exactly when all
    three are given and a user with the email is stored, to the three
    inputs; the update leaves the key and email columns alone and sets
    both names on the rows of that email. *)
Theorem updateUser_contract (p : Pool) (e fn ln : jsstring) :
  let '(r, p') := updateUser e fn ln p in
  (all_given e fn ln = false ->
     r = Throw (Error "Missing required fields") /\ p' = p)
  /\ (all_given e fn ln = true -> stored_user (tables p) e = None ->
        r = Throw (Error "User not found") /\ tables p' = tables p)
  /\ (forall v, r = Return v <->
        all_given e fn ln = true /\ stored_user (tables p) e <> None
        /\ v = mkUpdatedUser e fn ln)
  /\ (forall v, r = Return v ->
        map user_key (user_tbl (tables p')) = map user_key (user_tbl (tables p))
        /\ map email (user_tbl (tables p')) = map email (user_tbl (tables p))
        /\ forall row, In row (user_tbl (tables p')) ->
             sql_eq (email row) e = true ->
             first_name row = fn /\ last_name row = ln).
Proof.
  destruct (all_given e fn ln) eqn:Hg.
  - rewrite (updateUser_given e fn ln p Hg).
    destruct (stored_user (tables p) e) as [u|] eqn:Hu.
    + split; [easy|]. split; [easy|]. split.
      * intros v. split; [intros [= <-]; easy | intros (_ & _ & ->); easy].
      * intros v _. simpl. destruct (renamed_columns e fn ln (user_tbl (tables p))).
        repeat split; try assumption;
          unfold renamed in H1; apply in_map_iff in H1;
          destruct H1 as (r0 & <- & _);
          destruct (sql_eq (email r0) e) eqn:E; simpl in *; congruence.
    + split; [easy|]. split; [easy|]. split; [|easy].
      intros v. split; [easy | intros (_ & H & _); now destruct H].
  - rewrite (updateUser_missing e fn ln p Hg).
    split; [easy|]. split; [easy|]. split; [|easy].
    intros v. split; [easy | intros (H & _); discriminate H].
Qed.

(** ** Looking a user up by key *)

(** The join of [getUserByKey] names [user_tbl.use_key] and
    [address_tbl.user_key]; neither is a column, so the server refuses the
    statement whatever the tables hold. *)
Lemma getUserByKey_rejects (userKey : string) (p : Pool) :
  getUserByKey userKey p
  = (Throw (DatabaseError "42703"),
     mkPool (tables p) (issued p ++ [SelectUserJoinAddressByKey userKey])).
Proof. reflexivity. Qed.

(** C9: the sample database stores Alice under her key, yet looking that
    key up is rejected by the server (undefined column) instead of
    resolving to her row. *)
Theorem getUserByKey_stored_user_rejected :
  stored_user_by_key sample_db (user_key alice) = Some alice
  /\ fst (getUserByKey (user_key alice) (fresh sample_db))
     = Throw (DatabaseError "42703").
Proof. split; reflexivity. Qed.

(** ** Runs on the sample database *)

(** C5: deleting Alice keeps only the shared address, Bob's link and Bob. *)
Lemma deleteUser_cascade_witness :
  let '(r, p') :=
    deleteUserAddressByEmail (Some "alice@example.com") (fresh sample_db) in
  r = Return msg_deleted
  /\ ~ In own_address (address_tbl (tables p'))
  /\ ~ In unlinked_address (address_tbl (tables p'))
  /\ In shared_address (address_tbl (tables p')).
Proof.
  pose proof (deleteUser_cascade (fresh sample_db) (Some "alice@example.com")
                alice eq_refl ltac:(discriminate)) as H.
  cbv zeta in H.
  destruct (deleteUserAddressByEmail _ _) as [r p'].
  destruct H as (Hr & _ & _ & _ & _ & Hsole & Hnone & Hshared).
  split; [exact Hr|]. split; [|split].
  - apply Hsole; reflexivity.
  - apply Hnone; reflexivity.
  - apply Hshared; [simpl; tauto | reflexivity].
Defined.

(** C7: deleting Alice twice; the second call finds nobody. *)
Lemma deleteUser_not_found_witness :
  let p1 := snd (deleteUserAddressByEmail (Some "alice@example.com")
                   (fresh sample_db)) in
  fst (deleteUserAddressByEmail (Some "alice@example.com") p1)
  = Return msg_not_found
  /\ fst (deleteUserAddressByEmail (Some "carol@example.com") (fresh sample_db))
     = Return msg_not_found.
Proof.
  split.
  - pose proof (proj2 (deleteUser_not_found (fresh sample_db)
                         (Some "alice@example.com")) eq_refl) as H.
    destruct (deleteUserAddressByEmail _ (fresh sample_db)) as [r1 p1].
    simpl. destruct (deleteUserAddressByEmail _ p1) as [r2 p2].
    simpl. tauto.
  - pose proof (proj1 (deleteUser_not_found (fresh sample_db)
                         (Some "carol@example.com")) eq_refl) as H.
    destruct (deleteUserAddressByEmail _ _) as [r p']. simpl. tauto.
Defined.

(** C8 on the spec's two examples, and on a stored user. *)
Lemma updateUser_contract_witness :
  fst (updateUser (Some "a@b.com") (Some "") (Some "Doe") (fresh sample_db))
  = Throw (Error "Missing required fields")
  /\ fst (updateUser (Some "missing@b.com") (Some "A") (Some "B") (fresh sample_db))
     = Throw (Error "User not found")
  /\ fst (updateUser (Some "bob@example.com") (Some "Rob") (Some "Burr")
            (fresh sample_db))
     = Return (mkUpdatedUser (Some "bob@example.com") (Some "Rob") (Some "Burr")).
Proof.
  split; [|split].
  - pose proof (updateUser_contract (fresh sample_db)
                  (Some "a@b.com") (Some "") (Some "Doe")) as H.
    destruct (updateUser _ _ _ _) as [r p']. simpl.
    destruct H as (H & _). now apply H.
  - pose proof (updateUser_contract (fresh sample_db)
                  (Some "missing@b.com") (Some "A") (Some "B")) as H.
    destruct (updateUser _ _ _ _) as [r p']. simpl.
    destruct H as (_ & H & _). now apply H.
  - pose proof (updateUser_contract (fresh sample_db)
                  (Some "bob@example.com") (Some "Rob") (Some "Burr")) as H.
    destruct (updateUser _ _ _ _) as [r p']. simpl.
    destruct H as (_ & _ & H & _). apply H.
    split; [reflexivity|]. split; [discriminate | reflexivity].
Defined.

(** ** The schema is an invariant of the service *)

Lemma unique_on_snoc {A : Type} (same : A -> A -> bool) (rows : list A) (x : A) :
  unique_on same (rows ++ [x])
  = unique_on same rows && negb (existsb (fun r => same r x) rows).
Proof.
  induction rows as [|r rows IH]; simpl; [reflexivity|].
  rewrite IH, existsb_app. simpl.
  destruct (same r x), (existsb (same r) rows), (unique_on same rows);
    simpl; auto.
Qed.

Lemma existsb_filter_le {A : Type} (f g : A -> bool) (rows : list A) :
  existsb f rows = false -> existsb f (filter g rows) = false.
Proof.
  rewrite existsb_filter. induction rows as [|r rows IH]; simpl; [auto|].
  rewrite orb_false_iff. intros [-> H]. simpl. auto.
Qed.

Lemma unique_on_filter {A : Type} (same : A -> A -> bool) (g : A -> bool)
    (rows : list A) :
  unique_on same rows = true -> unique_on same (filter g rows) = true.
Proof.
  induction rows as [|r rows IH]; simpl; [auto|].
  rewrite andb_true_iff, negb_true_iff. intros [Hr Hu].
  destruct (g r); simpl; auto.
  now rewrite (existsb_filter_le _ g _ Hr), IH.
Qed.

(** Uniqueness on a column only looks at that column. *)
Lemma unique_on_column {A B : Type} (col : A -> B) (same : B -> B -> bool)
    (rows rows' : list A) :
  map col rows' = map col rows ->
  unique_on (fun r s => same (col r) (col s)) rows'
  = unique_on (fun r s => same (col r) (col s)) rows.
Proof.
  assert (E : forall l, unique_on (fun r s => same (col r) (col s)) l
                        = unique_on same (map col l)).
  { induction l as [|r l IH]; simpl; [reflexivity|].
    rewrite IH. do 2 f_equal. clear IH.
    induction l as [|s l IH]; simpl; [reflexivity | now rewrite IH]. }
  intros H. now rewrite !E, H.
Qed.

Ltac split_schema H :=
  unfold schema_ok in H |- *;
  rewrite !andb_true_iff in H |- *;
  destruct H as [[[?Haddr ?Hkey] ?Hmail] ?Hlink];
  cbn [address_tbl user_tbl user_address_link_tbl].

Lemma existsb_swap {A : Type} (same : A -> A -> bool) (x : A) (rows : list A) :
  (forall r, same r x = same x r) ->
  existsb (fun r => same r x) rows = existsb (same x) rows.
Proof.
  intros H. induction rows as [|r rows IH]; simpl; [reflexivity|].
  now rewrite H, IH.
Qed.

Section Invariant.

Variable md5 : string -> string.
Variable sha256 : string -> string.

Lemma createAddress_schema (a : AddressType) :
  preserves_schema (createAddress md5 a).
Proof.
  intros p H.
  destruct (stored_address (tables p) (createAddressHash md5 a)) as [row|] eqn:E.
  - now rewrite (createAddress_found md5 a p row E).
  - rewrite (createAddress_new md5 a p E). simpl. split_schema H.
    repeat split; auto. rewrite unique_on_snoc, Haddr. simpl.
    apply negb_true_iff. apply find_none_existsb in E. exact E.
Qed.

Lemma createUser_schema (userData : UserType) :
  preserves_schema (createUser sha256 userData).
Proof.
  intros p H. destruct userData as [uk fn ln [e|]]; [|exact H].
  destruct (stored_user (tables p) (Some e)) as [row|] eqn:He.
  - now rewrite (createUser_found sha256 uk fn ln e p row He).
  - destruct (stored_user_by_key (tables p) (createHash sha256 (toLowerCase e)))
      as [other|] eqn:Hk.
    + now rewrite (createUser_conflict sha256 uk fn ln e p other He Hk).
    + rewrite (createUser_new sha256 uk fn ln e p He Hk). simpl. split_schema H.
      apply find_none_existsb in He, Hk.
      repeat split; auto; rewrite unique_on_snoc; apply andb_true_iff;
        (split; [assumption|]); apply negb_true_iff.
      * exact Hk.
      * exact He.
Qed.

Lemma createUserAddressLink_schema (uk ak : string) :
  preserves_schema (createUserAddressLink uk ak).
Proof.
  intros p H. unfold createUserAddressLink, await, Sql.insert_link, query.
  cbv beta iota zeta.
  destruct (existsb _ (user_address_link_tbl (tables p))) eqn:E; simpl;
    [exact H|].
  split_schema H. repeat split; auto.
  rewrite unique_on_snoc, Hlink. simpl. apply negb_true_iff.
  rewrite <- E. apply existsb_swap. intros r. unfold same_link. simpl.
  now rewrite (String.eqb_sym uk), (String.eqb_sym ak).
Qed.

Lemma deleteUserAddressByEmail_schema (e : jsstring) :
  preserves_schema (deleteUserAddressByEmail e).
Proof.
  intros p H. destruct (stored_user (tables p) e) as [u|] eqn:Hu.
  - destruct (String.eqb_spec (user_key u) "") as [Hk | Hk].
    + now rewrite (delete_falsy_key e p u Hu Hk).
    + rewrite (delete_found e p u Hu Hk). simpl. split_schema H.
      repeat split; now apply unique_on_filter.
  - now rewrite (delete_no_user e p Hu).
Qed.

Lemma updateUser_schema (e fn ln : jsstring) :
  preserves_schema (updateUser e fn ln).
Proof.
  intros p H. destruct (all_given e fn ln) eqn:Hg.
  - rewrite (updateUser_given e fn ln p Hg).
    destruct (stored_user (tables p) e); [|exact H].
    simpl. split_schema H.
    destruct (renamed_columns e fn ln (user_tbl (tables p))) as [Ek Em].
    repeat split; auto.
    + now rewrite (unique_on_column user_key String.eqb _ _ Ek).
    + now rewrite (unique_on_column email sql_eq _ _ Em).
  - now rewrite (updateUser_missing e fn ln p Hg).
Qed.

Lemma getUserByKey_schema (k : string) : preserves_schema (getUserByKey k).
Proof. intros p H. now rewrite getUserByKey_rejects. Qed.

End Invariant.

(** ** Links *)

Lemma same_link_eq (l m : LinkRow) : same_link l m = true <-> l = m.
Proof.
  destruct l as [lu la], m as [mu ma]. unfold same_link. simpl.
  rewrite andb_true_iff, !String.eqb_eq. split.
  - intros [-> ->]. reflexivity.
  - intros [= -> ->]. auto.
Qed.

Lemma existsb_same_link (row : LinkRow) (rows : list LinkRow) :
  existsb (same_link row) rows = true <-> In row rows.
Proof.
  rewrite existsb_exists. split.
  - intros (x & Hx & H). apply same_link_eq in H. now subst.
  - intros H. exists row. split; [exact H | now apply same_link_eq].
Qed.

Lemma createUserAddressLink_run (uk ak : string) (p : Pool) :
  createUserAddressLink uk ak p
  = (Return None,
     mkPool (if existsb (same_link (mkLinkRow uk ak))
                        (user_address_link_tbl (tables p))
             then tables p
             else mkDatabase (address_tbl (tables p)) (user_tbl (tables p))
                    (user_address_link_tbl (tables p) ++ [mkLinkRow uk ak]))
            (issued p ++ [InsertLink uk ak])).
Proof.
  unfold createUserAddressLink, await, Sql.insert_link, query, resolve.
  cbv beta iota zeta.
  now destruct (existsb _ (user_address_link_tbl (tables p))).
Qed.

(** X1: [createUserAddressLink] always resolves to [undefined] (the INSERT
    has no RETURNING); afterwards the pair is a row of the link table; a
    second call with the same pair changes no table; the call keeps every
    link that was there, adds none but the pair, and leaves users and
    addresses alone. *)
Theorem createUserAddressLink_idempotent (p : Pool) (uk ak : string) :
  let '(r1, p1) := createUserAddressLink uk ak p in
  let '(r2, p2) := createUserAddressLink uk ak p1 in
  r1 = Return None /\ r2 = Return None
  /\ In (mkLinkRow uk ak) (user_address_link_tbl (tables p1))
  /\ tables p2 = tables p1
  /\ (forall l, In l (user_address_link_tbl (tables p1)) <->
        In l (user_address_link_tbl (tables p)) \/ l = mkLinkRow uk ak)
  /\ (In (mkLinkRow uk ak) (user_address_link_tbl (tables p)) ->
        tables p1 = tables p)
  /\ address_tbl (tables p1) = address_tbl (tables p)
  /\ user_tbl (tables p1) = user_tbl (tables p).
Proof.
  rewrite (createUserAddressLink_run uk ak p). cbv beta iota.
  rewrite createUserAddressLink_run. cbn [tables issued].
  destruct (existsb _ (user_address_link_tbl (tables p))) eqn:E.
  - rewrite E. pose proof (proj1 (existsb_same_link _ _) E) as Hin.
    repeat split; auto. intros [H | ->]; assumption.
  - cbn [user_address_link_tbl address_tbl user_tbl].
    assert (Hnew : In (mkLinkRow uk ak)
                      (user_address_link_tbl (tables p) ++ [mkLinkRow uk ak]))
      by (apply in_or_app; right; now left).
    rewrite (proj2 (existsb_same_link _ _) Hnew).
    repeat split; auto.
    + intros H. apply in_app_or in H. destruct H as [H | [<- | []]]; auto.
    + intros [H | ->]; [apply in_or_app; now left | exact Hnew].
    + intros H. apply existsb_same_link in H. congruence.
Qed.

(** ** The address of a user *)

Lemma first_row_none {A : Type} (rows : list A) :
  first_row rows = None <-> rows = [].
Proof. destruct rows; simpl; split; congruence. Qed.

Lemma first_row_in {A : Type} (rows : list A) (r : A) :
  first_row rows = Some r -> In r rows.
Proof. destruct rows; simpl; [discriminate | intros [= ->]; now left]. Qed.

Lemma select_user_address_rows (e : jsstring) (p : Pool) :
  exists rows,
    select_user_address e p = (Return rows, p)
    /\ forall row, In row rows <->
         exists u l a, chain (tables p) e u l a /\ row = join_row u l a.
Proof.
  unfold select_user_address. eexists. split; [reflexivity|]. intros row.
  rewrite in_flat_map. split.
  - intros (u & Hu & H). apply filter_In in Hu. destruct Hu as [Hu He].
    apply in_flat_map in H. destruct H as (l & Hl & H).
    apply filter_In in Hl. destruct Hl as [Hl Hul].
    apply in_map_iff in H. destruct H as (a & <- & Ha).
    apply filter_In in Ha. destruct Ha as [Ha Hla].
    apply String.eqb_eq in Hul, Hla.
    exists u, l, a. unfold chain. auto 10.
  - intros (u & l & a & (Hu & Hl & Ha & He & Hul & Hla) & ->).
    exists u. split; [apply filter_In; auto|].
    apply in_flat_map. exists l. split.
    + apply filter_In. split; [exact Hl | now apply String.eqb_eq].
    + apply in_map. apply filter_In. split; [exact Ha | now apply String.eqb_eq].
Qed.

(** X2: [getUserAddress] reads only; it resolves to [null] exactly when no
    stored user with that email has a link to a stored address, and a row
    it resolves to is made of such a user, one of its links and the address
    of that link (so it carries the email asked for). *)
Theorem getUserAddress_chain (p : Pool) (e : jsstring) :
  let '(r, p') := getUserAddress e p in
  p' = p
  /\ (r = Return None <-> forall u l a, ~ chain (tables p) e u l a)
  /\ (forall row, r = Return (Some row) ->
        sql_eq (ua_email row) e = true
        /\ exists u l a, chain (tables p) e u l a /\ row = join_row u l a)
  /\ (forall x, r <> Throw x).
Proof.
  unfold getUserAddress, await, resolve.
  destruct (select_user_address_rows e p) as (rows & -> & Hin).
  split; [reflexivity|]. split; [|split].
  - split.
    + intros [= H]. apply first_row_none in H. subst rows.
      intros u l a Hc. apply (proj2 (Hin (join_row u l a))). eauto.
    + intros H. f_equal. apply first_row_none.
      destruct rows as [|row rows]; [reflexivity|]. exfalso.
      destruct (proj1 (Hin row) (or_introl eq_refl)) as (u & l & a & Hc & _).
      exact (H u l a Hc).
  - intros row [= H]. apply first_row_in in H. apply Hin in H.
    destruct H as (u & l & a & Hc & ->). split; [|eauto].
    simpl. apply Hc.
  - discriminate.
Qed.

Lemma find_none_filter {A : Type} (f : A -> bool) (rows : list A) :
  find f rows = None -> filter f rows = [].
Proof.
  induction rows as [|r rows IH]; simpl; [reflexivity|].
  destruct (f r); [discriminate | exact IH].
Qed.

Lemma getUserAddress_no_user (e : jsstring) (p : Pool) :
  stored_user (tables p) e = None -> getUserAddress e p = (Return None, p).
Proof.
  intros H. unfold getUserAddress, await, select_user_address, resolve.
  unfold stored_user in H. now rewrite (find_none_filter _ _ H).
Qed.

(** ** Lookups after a deletion and after an update *)

(** X3: on tables that respect the schema, once the cascade has resolved to
    its success message, [getUserByEmail] and [getUserAddress] for that
    email both resolve to [null], and every address that is still stored
    has a link. *)
Theorem delete_then_lookup (p : Pool) (e : jsstring) :
  schema_ok (tables p) = true ->
  let '(r, p1) := deleteUserAddressByEmail e p in
  r = Return msg_deleted ->
  fst (getUserByEmail e p1) = Return None
  /\ fst (getUserAddress e p1) = Return None
  /\ (forall a, In a (address_tbl (tables p1)) ->
        linked (tables p1) (address_key a) = true).
Proof.
  intros Hok. destruct (stored_user (tables p) e) as [u|] eqn:Hu.
  - destruct (String.eqb_spec (user_key u) "") as [Hk | Hk].
    + rewrite (delete_falsy_key e p u Hu Hk). discriminate.
    + rewrite (delete_found e p u Hu Hk). intros _.
      pose proof (delete_removes_email (tables p) e u Hok Hu) as Hgone.
      rewrite getUserByEmail_run.
      rewrite getUserAddress_no_user by exact Hgone.
      cbn [fst tables address_tbl user_address_link_tbl].
      split; [f_equal; exact Hgone|]. split; [reflexivity|].
      intros a Ha. apply filter_In in Ha. destruct Ha as [_ Ha].
      unfold linked_by_other in Ha. unfold linked.
      cbn [user_address_link_tbl].
      apply existsb_exists in Ha. destruct Ha as (l & Hl & H).
      apply andb_true_iff in H. destruct H as [Hak Huk].
      apply existsb_exists. exists l. split; [|exact Hak].
      apply filter_In. auto.
  - rewrite (delete_no_user e p Hu). discriminate.
Qed.

Lemma find_renamed (e fn ln : jsstring) (rows : list UserRow) :
  find (fun r => sql_eq (email r) e) (renamed e fn ln rows)
  = option_map (fun u => mkUserRow (user_key u) fn ln (email u))
               (find (fun r => sql_eq (email r) e) rows).
Proof.
  induction rows as [|r rows IH]; simpl; [reflexivity|].
  destruct (sql_eq (email r) e) eqn:E; simpl; rewrite E; [reflexivity | exact IH].
Qed.

(** X4: when all three inputs are given and a user with the email is
    stored, [updateUser] resolves to the three inputs, and a following
    [getUserByEmail] resolves to that user with both names replaced, key
    and email as before; addresses and links are untouched, and so is
    every row of another email. *)
Theorem updateUser_then_lookup (p : Pool) (e fn ln : jsstring) (u : UserRow) :
  all_given e fn ln = true ->
  stored_user (tables p) e = Some u ->
  let '(r, p1) := updateUser e fn ln p in
  r = Return (mkUpdatedUser e fn ln)
  /\ fst (getUserByEmail e p1)
     = Return (Some (mkUserRow (user_key u) fn ln (email u)))
  /\ address_tbl (tables p1) = address_tbl (tables p)
  /\ user_address_link_tbl (tables p1) = user_address_link_tbl (tables p)
  /\ length (user_tbl (tables p1)) = length (user_tbl (tables p))
  /\ (forall r0, In r0 (user_tbl (tables p)) -> sql_eq (email r0) e = false ->
        In r0 (user_tbl (tables p1))).
Proof.
  intros Hg Hu. rewrite (updateUser_given e fn ln p Hg), Hu.
  rewrite getUserByEmail_run.
  cbn [fst tables address_tbl user_tbl user_address_link_tbl].
  split; [reflexivity|]. split.
  - unfold stored_user. cbn [user_tbl]. rewrite find_renamed.
    unfold stored_user in Hu. now rewrite Hu.
  - split; [reflexivity|]. split; [reflexivity|]. split.
    + unfold renamed. apply length_map.
    + intros r0 Hin Hne. unfold renamed. apply in_map_iff.
      exists r0. now rewrite Hne.
Qed.

(** ** What the service keeps true of the tables *)

Lemma forallb_snoc {A : Type} (f : A -> bool) (rows : list A) (x : A) :
  forallb f (rows ++ [x]) = forallb f rows && f x.
Proof. rewrite forallb_app. simpl. now rewrite andb_true_r. Qed.

Lemma forallb_filter {A : Type} (f g : A -> bool) (rows : list A) :
  forallb f rows = true -> forallb f (filter g rows) = true.
Proof.
  rewrite !forallb_forall. intros H x Hx. apply filter_In in Hx. now apply H.
Qed.

Lemma links_resolve_spec (db : Database) :
  links_resolve db = true <->
  forall l, In l (user_address_link_tbl db) ->
    (exists u, In u (user_tbl db) /\ user_key u = link_user_key l)
    /\ (exists a, In a (address_tbl db) /\ address_key a = link_address_key l).
Proof.
  unfold links_resolve. rewrite forallb_forall.
  split; intros H l Hl; specialize (H l Hl).
  - rewrite andb_true_iff, !existsb_exists in H.
    destruct H as [(u & Hu & Eu) (a & Ha & Ea)].
    apply String.eqb_eq in Eu. apply String.eqb_eq in Ea.
    split; [exists u | exists a]; auto.
  - destruct H as [(u & Hu & Eu) (a & Ha & Ea)].
    rewrite andb_true_iff, !existsb_exists.
    split; [exists u | exists a]; (split; [assumption | now apply String.eqb_eq]).
Qed.

(** Links keep resolving when the tables only gain users and addresses. *)
Lemma links_resolve_grow (db db' : Database) :
  user_address_link_tbl db' = user_address_link_tbl db ->
  (forall u, In u (user_tbl db) -> In u (user_tbl db')) ->
  (forall a, In a (address_tbl db) -> In a (address_tbl db')) ->
  links_resolve db = true -> links_resolve db' = true.
Proof.
  intros Hl Hu Ha. rewrite !links_resolve_spec, Hl. intros H l Hin.
  destruct (H l Hin) as [(u & ? & ?) (a & ? & ?)]. split; eauto.
Qed.

Section Kept.

Variable md5 : string -> string.
Variable sha256 : string -> string.

Ltac split_content H :=
  unfold content_addressed in H |- *;
  rewrite andb_true_iff in H |- *;
  destruct H as [?Husers ?Haddrs];
  cbn [address_tbl user_tbl user_address_link_tbl].

Lemma createAddress_content (a : AddressType) :
  preserves (content_addressed md5 sha256) (createAddress md5 a).
Proof.
  intros p H.
  destruct (stored_address (tables p) (createAddressHash md5 a)) as [row|] eqn:E.
  - now rewrite (createAddress_found md5 a p row E).
  - rewrite (createAddress_new md5 a p E). simpl. split_content H.
    split; [assumption|]. rewrite forallb_snoc, Haddrs. simpl.
    apply String.eqb_refl.
Qed.

Lemma createUser_content (userData : UserType) :
  preserves (content_addressed md5 sha256) (createUser sha256 userData).
Proof.
  intros p H. destruct userData as [uk fn ln [e|]]; [|exact H].
  destruct (stored_user (tables p) (Some e)) as [row|] eqn:He.
  - now rewrite (createUser_found sha256 uk fn ln e p row He).
  - destruct (stored_user_by_key (tables p) (createHash sha256 (toLowerCase e)))
      as [other|] eqn:Hk.
    + now rewrite (createUser_conflict sha256 uk fn ln e p other He Hk).
    + rewrite (createUser_new sha256 uk fn ln e p He Hk). simpl. split_content H.
      split; [|assumption]. rewrite forallb_snoc, Husers. simpl.
      apply String.eqb_refl.
Qed.

Lemma createUserAddressLink_content (uk ak : string) :
  preserves (content_addressed md5 sha256) (createUserAddressLink uk ak).
Proof.
  intros p H. rewrite createUserAddressLink_run. simpl.
  now destruct (existsb _ (user_address_link_tbl (tables p))).
Qed.

Lemma deleteUserAddressByEmail_content (e : jsstring) :
  preserves (content_addressed md5 sha256) (deleteUserAddressByEmail e).
Proof.
  intros p H. destruct (stored_user (tables p) e) as [u|] eqn:Hu.
  - destruct (String.eqb_spec (user_key u) "") as [Hk | Hk].
    + now rewrite (delete_falsy_key e p u Hu Hk).
    + rewrite (delete_found e p u Hu Hk). simpl. split_content H.
      split; now apply forallb_filter.
  - now rewrite (delete_no_user e p Hu).
Qed.

Lemma updateUser_content (e fn ln : jsstring) :
  preserves (content_addressed md5 sha256) (updateUser e fn ln).
Proof.
  intros p H. destruct (all_given e fn ln) eqn:Hg.
  - rewrite (updateUser_given e fn ln p Hg).
    destruct (stored_user (tables p) e); [|exact H].
    simpl. split_content H. split; [|assumption].
    rewrite forallb_forall in Husers |- *. intros r Hr.
    unfold renamed in Hr. apply in_map_iff in Hr.
    destruct Hr as (r0 & <- & Hr0). specialize (Husers r0 Hr0).
    now destruct (sql_eq (email r0) e).
  - now rewrite (updateUser_missing e fn ln p Hg).
Qed.

Lemma createAddress_links (a : AddressType) :
  preserves links_resolve (createAddress md5 a).
Proof.
  intros p H.
  destruct (stored_address (tables p) (createAddressHash md5 a)) as [row|] eqn:E.
  - now rewrite (createAddress_found md5 a p row E).
  - rewrite (createAddress_new md5 a p E). simpl.
    apply (links_resolve_grow (tables p)); auto.
    intros x Hx. simpl. apply in_or_app. now left.
Qed.

Lemma createUser_links (userData : UserType) :
  preserves links_resolve (createUser sha256 userData).
Proof.
  intros p H. destruct userData as [uk fn ln [e|]]; [|exact H].
  destruct (stored_user (tables p) (Some e)) as [row|] eqn:He.
  - now rewrite (createUser_found sha256 uk fn ln e p row He).
  - destruct (stored_user_by_key (tables p) (createHash sha256 (toLowerCase e)))
      as [other|] eqn:Hk.
    + now rewrite (createUser_conflict sha256 uk fn ln e p other He Hk).
    + rewrite (createUser_new sha256 uk fn ln e p He Hk). simpl.
      apply (links_resolve_grow (tables p)); auto.
      intros x Hx. simpl. apply in_or_app. now left.
Qed.

Lemma deleteUserAddressByEmail_links (e : jsstring) :
  preserves links_resolve (deleteUserAddressByEmail e).
Proof.
  intros p H. destruct (stored_user (tables p) e) as [u|] eqn:Hu.
  - destruct (String.eqb_spec (user_key u) "") as [Hk | Hk].
    + now rewrite (delete_falsy_key e p u Hu Hk).
    + rewrite (delete_found e p u Hu Hk). simpl.
      rewrite links_resolve_spec in H |- *. simpl. intros l Hl.
      apply filter_In in Hl. destruct Hl as [Hl Hne].
      destruct (H l Hl) as [(w & Hw & Ew) (a & Ha & Ea)]. split.
      * exists w. split; [|exact Ew]. apply filter_In. split; [exact Hw|].
        now rewrite Ew.
      * exists a. split; [|exact Ea]. apply filter_In. split; [exact Ha|].
        unfold linked_by_other. apply existsb_exists. exists l.
        split; [exact Hl|]. rewrite Hne, Ea. now rewrite String.eqb_refl.
  - now rewrite (delete_no_user e p Hu).
Qed.

Lemma updateUser_links (e fn ln : jsstring) :
  preserves links_resolve (updateUser e fn ln).
Proof.
  intros p H. destruct (all_given e fn ln) eqn:Hg.
  - rewrite (updateUser_given e fn ln p Hg).
    destruct (stored_user (tables p) e); [|exact H].
    simpl. rewrite links_resolve_spec in H |- *. simpl. intros l Hl.
    destruct (H l Hl) as [(w & Hw & Ew) Ha]. split; [|exact Ha].
    exists (if sql_eq (email w) e
            then mkUserRow (user_key w) fn ln (email w) else w).
    split; [unfold renamed; apply in_map_iff; now exists w|].
    now destruct (sql_eq (email w) e).
  - now rewrite (updateUser_missing e fn ln p Hg).
Qed.

(** A link between a stored user key and a stored address key resolves. *)
Lemma createUserAddressLink_links (uk ak : string) (p : Pool) :
  stored_user_by_key (tables p) uk <> None ->
  stored_address (tables p) ak <> None ->
  links_resolve (tables p) = true ->
  links_resolve (tables (snd (createUserAddressLink uk ak p))) = true.
Proof.
  intros Hu Ha H. rewrite createUserAddressLink_run. simpl.
  destruct (existsb _ (user_address_link_tbl (tables p))); [exact H|].
  unfold links_resolve in *. simpl. rewrite forallb_snoc, H. simpl.
  apply andb_true_iff. split.
  - destruct (existsb _ (user_tbl (tables p))) eqn:E; [reflexivity|].
    apply find_none_existsb in E. now destruct Hu.
  - destruct (existsb _ (address_tbl (tables p))) eqn:E; [reflexivity|].
    apply find_none_existsb in E. now destruct Ha.
Qed.

End Kept.

Section ServiceInvariants.

Variable md5 : string -> string.
Variable sha256 : string -> string.

(** X5: every writing method of the service keeps the uniqueness
    constraints of the schema (address key, user key, email, link pair),
    whether it resolves or rejects. *)
Theorem service_keeps_schema (p : Pool) :
  schema_ok (tables p) = true ->
  (forall a, schema_ok (tables (snd (createAddress md5 a p))) = true)
  /\ (forall u, schema_ok (tables (snd (createUser sha256 u p))) = true)
  /\ (forall uk ak,
        schema_ok (tables (snd (createUserAddressLink uk ak p))) = true)
  /\ (forall e, schema_ok (tables (snd (deleteUserAddressByEmail e p))) = true)
  /\ (forall e fn ln, schema_ok (tables (snd (updateUser e fn ln p))) = true).
Proof.
  intros H. repeat split; intros.
  - now apply createAddress_schema.
  - now apply createUser_schema.
  - now apply createUserAddressLink_schema.
  - now apply deleteUserAddressByEmail_schema.
  - now apply updateUser_schema.
Qed.

(** X6: every writing method of the service keeps the rows content
    addressed: each user row under the sha256 of its lower-cased email,
    each address row under the md5 of its four lower-cased fields. *)
Theorem service_keeps_content_addressing (p : Pool) :
  content_addressed md5 sha256 (tables p) = true ->
  (forall a,
      content_addressed md5 sha256 (tables (snd (createAddress md5 a p))) = true)
  /\ (forall u,
        content_addressed md5 sha256 (tables (snd (createUser sha256 u p))) = true)
  /\ (forall uk ak,
        content_addressed md5 sha256
          (tables (snd (createUserAddressLink uk ak p))) = true)
  /\ (forall e,
        content_addressed md5 sha256
          (tables (snd (deleteUserAddressByEmail e p))) = true)
  /\ (forall e fn ln,
        content_addressed md5 sha256 (tables (snd (updateUser e fn ln p))) = true).
Proof.
  intros H. repeat split; intros.
  - now apply createAddress_content.
  - now apply createUser_content.
  - now apply createUserAddressLink_content.
  - now apply deleteUserAddressByEmail_content.
  - now apply updateUser_content.
Qed.

(** X7: when every link names a stored user and a stored address, this
    still holds after [createAddress], [createUser], the deleting cascade
    and [updateUser]; and after [createUserAddressLink] when its two keys
    are stored. In particular the cascade leaves no link to a swept address
    or to the deleted user. *)
Theorem service_keeps_links_resolving (p : Pool) :
  links_resolve (tables p) = true ->
  (forall a, links_resolve (tables (snd (createAddress md5 a p))) = true)
  /\ (forall u, links_resolve (tables (snd (createUser sha256 u p))) = true)
  /\ (forall e, links_resolve (tables (snd (deleteUserAddressByEmail e p))) = true)
  /\ (forall e fn ln, links_resolve (tables (snd (updateUser e fn ln p))) = true)
  /\ (forall uk ak,
        stored_user_by_key (tables p) uk <> None ->
        stored_address (tables p) ak <> None ->
        links_resolve (tables (snd (createUserAddressLink uk ak p))) = true).
Proof.
  intros H. repeat split; intros.
  - now apply createAddress_links.
  - now apply createUser_links.
  - now apply deleteUserAddressByEmail_links.
  - now apply updateUser_links.
  - now apply createUserAddressLink_links.
Qed.

Lemma content_addressed_user (db : Database) (r : UserRow) :
  content_addressed md5 sha256 db = true -> In r (user_tbl db) ->
  exists e, email r = Some e /\ user_key r = createHash sha256 (toLowerCase e).
Proof.
  unfold content_addressed. rewrite andb_true_iff, !forallb_forall.
  intros [H _] Hr. specialize (H r Hr).
  destruct (email r) as [e|]; [|discriminate].
  exists e. split; [reflexivity | now apply String.eqb_eq].
Qed.

(** X8: on tables that respect the schema and whose rows are content
    addressed, [createUser] with an email of which another spelling is
    stored (a different string with the same lower-casing) finds no user
    by email, has its INSERT absorbed by the key of the stored one, and
    rejects with "Email already exists", writing nothing. *)
Theorem createUser_other_spelling_conflicts (p : Pool) (uk fn ln : jsstring)
    (e e' : string) (r : UserRow) :
  schema_ok (tables p) = true ->
  content_addressed md5 sha256 (tables p) = true ->
  In r (user_tbl (tables p)) -> email r = Some e' ->
  e' <> e -> toLowerCase e' = toLowerCase e ->
  stored_user (tables p) (Some e) = None
  /\ fst (createUser sha256 (mkUser uk fn ln (Some e)) p)
     = Throw (Error "Email already exists")
  /\ tables (snd (createUser sha256 (mkUser uk fn ln (Some e)) p)) = tables p.
Proof.
  intros Hs Hca Hin Hmail Hne Hlow.
  destruct (content_addressed_user _ _ Hca Hin) as (e2 & He2 & Hkr).
  assert (e2 = e') by congruence. subst e2.
  assert (Hnone : stored_user (tables p) (Some e) = None).
  { destruct (stored_user (tables p) (Some e)) as [u|] eqn:Hu; [|reflexivity].
    exfalso. unfold stored_user in Hu. apply find_some in Hu.
    destruct Hu as [Huin Hue].
    destruct (content_addressed_user _ _ Hca Huin) as (e0 & He0 & Hku).
    rewrite He0 in Hue. simpl in Hue. apply String.eqb_eq in Hue. subst e0.
    unfold schema_ok in Hs. rewrite !andb_true_iff in Hs.
    destruct Hs as [[[_ Hkey] _] _].
    assert (u = r).
    { apply (unique_on_eq _ _
               (fun x y => String.eqb_sym (user_key x) (user_key y)) Hkey);
        auto.
      rewrite Hku, Hkr, Hlow. apply String.eqb_refl. }
    subst u. congruence. }
  split; [exact Hnone|].
  destruct (stored_user_by_key (tables p) (createHash sha256 (toLowerCase e)))
    as [other|] eqn:Hk.
  - rewrite (createUser_conflict sha256 uk fn ln e p other Hnone Hk). auto.
  - exfalso. unfold stored_user_by_key in Hk.
    pose proof (find_none _ _ Hk r Hin) as Hf. simpl in Hf.
    rewrite Hkr, Hlow in Hf. now rewrite String.eqb_refl in Hf.
Qed.

End ServiceInvariants.

(** ** The routes *)

Section RouteProperties.

Variable md5 : string -> string.
Variable sha256 : string -> string.

(** What [createAddress] leaves behind, in one statement. *)
Lemma createAddress_result (a : AddressType) (p : Pool) :
  exists arow p1,
    createAddress md5 a p = (Return (Some arow), p1)
    /\ stored_address (tables p1) (createAddressHash md5 a) = Some arow
    /\ user_tbl (tables p1) = user_tbl (tables p)
    /\ user_address_link_tbl (tables p1) = user_address_link_tbl (tables p)
    /\ (stored_address (tables p) (createAddressHash md5 a) <> None ->
          tables p1 = tables p)
    /\ (stored_address (tables p) (createAddressHash md5 a) = None ->
          address_tbl (tables p1)
          = (address_tbl (tables p) ++ [address_row md5 a])%list).
Proof.
  destruct (stored_address (tables p) (createAddressHash md5 a)) as [row|] eqn:E.
  - rewrite (createAddress_found md5 a p row E).
    do 2 eexists. split; [reflexivity|]. simpl. repeat split; auto. discriminate.
  - rewrite (createAddress_new md5 a p E).
    do 2 eexists. split; [reflexivity|]. simpl.
    split; [now apply stored_after_new|]. repeat split; auto. congruence.
Qed.

(** What [createUser] leaves behind for an email that is a string. *)
Lemma createUser_result (uk fn ln : jsstring) (e : string) (p : Pool) :
  (exists urow p2,
      createUser sha256 (mkUser uk fn ln (Some e)) p = (Return urow, p2)
      /\ stored_user (tables p2) (Some e) = Some urow
      /\ address_tbl (tables p2) = address_tbl (tables p)
      /\ user_address_link_tbl (tables p2) = user_address_link_tbl (tables p)
      /\ (stored_user (tables p) (Some e) <> None
          \/ stored_user_by_key (tables p) (email_key sha256 e) = None)
      /\ (forall old, stored_user (tables p) (Some e) = Some old ->
            urow = old /\ tables p2 = tables p)
      /\ (stored_user (tables p) (Some e) = None ->
            urow = user_row sha256 fn ln e
            /\ user_tbl (tables p2) = (user_tbl (tables p) ++ [urow])%list))
  \/ (exists p2,
        createUser sha256 (mkUser uk fn ln (Some e)) p
        = (Throw (Error "Email already exists"), p2)
        /\ tables p2 = tables p
        /\ stored_user (tables p) (Some e) = None
        /\ stored_user_by_key (tables p) (email_key sha256 e) <> None).
Proof.
  unfold email_key.
  destruct (stored_user (tables p) (Some e)) as [row|] eqn:He.
  - left. rewrite (createUser_found sha256 uk fn ln e p row He).
    do 2 eexists. split; [reflexivity|]. simpl.
    repeat split; auto; try congruence. left. discriminate.
  - destruct (stored_user_by_key (tables p) (createHash sha256 (toLowerCase e)))
      as [other|] eqn:Hk.
    + right. rewrite (createUser_conflict sha256 uk fn ln e p other He Hk).
      eexists. split; [reflexivity|]. simpl. repeat split; auto. discriminate.
    + left. rewrite (createUser_new sha256 uk fn ln e p He Hk).
      do 2 eexists. split; [reflexivity|]. simpl.
      split; [now apply stored_user_after_new|].
      repeat split; auto; discriminate.
Qed.

Lemma post_user_no_email (req : Body) (p : Pool) :
  b_email req = None ->
  post_user md5 sha256 req p
  = (Return (mkResponse 500 (JsonError "Error creating user")), p).
Proof.
  intros H. unfold post_user, try_catch, await, call. now rewrite H.
Qed.

(** The handler with an email, once the address step is known. *)
Lemma post_user_email (req : Body) (e : string) (p p1 : Pool)
    (arow : option AddressRow) :
  b_email req = Some e ->
  createAddress md5 (request_address md5 req) p = (Return arow, p1) ->
  post_user md5 sha256 req p
  = match createUser sha256
            (mkUser (Some (email_key sha256 e)) (b_first_name req)
                    (b_last_name req) (Some e)) p1 with
    | (Return urow, p2) =>
        (Return (mkResponse 201 (JsonCreated urow arow None)),
         snd (createUserAddressLink (email_key sha256 e)
                (request_address_key md5 req) p2))
    | (Throw x, p2) =>
        (Return (if is_email_exists x
                 then mkResponse 409 (JsonError "Email already exists")
                 else mkResponse 500 (JsonError "Error creating user")), p2)
    end.
Proof.
  intros He Ha. unfold post_user, try_catch, await, call.
  rewrite He. cbn [createUserHash].
  change (mkAddress (Some _) (b_country_id req) (b_city req) (b_state req)
                    (b_zip_code req))
    with (request_address md5 req).
  rewrite Ha.
  change (createHash sha256 (toLowerCase e)) with (email_key sha256 e).
  destruct (createUser sha256 _ p1) as [[urow | x] p2].
  - change (createAddressHash md5 _) with (request_address_key md5 req).
    now rewrite createUserAddressLink_run.
  - unfold resolve. now destruct (is_email_exists x).
Qed.

Lemma stored_user_same (db db' : Database) (e : jsstring) (k : string) :
  user_tbl db' = user_tbl db ->
  stored_user db' e = stored_user db e
  /\ stored_user_by_key db' k = stored_user_by_key db k.
Proof. unfold stored_user, stored_user_by_key. now intros ->. Qed.

(** X9: for a request whose fields are strings or missing, POST /user
    always answers, never rejects, and its status is 201, 409 or 500; with
    an email it answers 409 exactly when the email is not stored while its
    key is taken, and 201 exactly when the email is stored or its key is
    free. *)
Theorem post_user_answers (req : Body) (p : Pool) :
  let '(r, p') := post_user md5 sha256 req p in
  exists resp,
    r = Return resp
    /\ (status resp = 201 \/ status resp = 409 \/ status resp = 500)
    /\ (forall e, b_email req = Some e ->
          (status resp = 409 <->
             stored_user (tables p) (Some e) = None
             /\ stored_user_by_key (tables p) (email_key sha256 e) <> None)
          /\ (status resp = 201 <->
                stored_user (tables p) (Some e) <> None
                \/ stored_user_by_key (tables p) (email_key sha256 e) = None)).
Proof.
  destruct (b_email req) as [e|] eqn:He.
  - destruct (createAddress_result (request_address md5 req) p)
      as (arow & p1 & Ha & _ & Hu & _).
    rewrite (post_user_email req e p p1 (Some arow) He Ha).
    destruct (stored_user_same (tables p) (tables p1) (Some e)
                (email_key sha256 e) Hu) as [Es Ek].
    destruct (createUser_result (Some (email_key sha256 e)) (b_first_name req)
                (b_last_name req) e p1)
      as [(urow & p2 & -> & _ & _ & _ & Hwhy & _) | (p2 & -> & _ & Hn & Hk)].
    + rewrite Es, Ek in Hwhy.
      eexists. split; [reflexivity|]. simpl. split; [auto|].
      intros e0 [= <-]. split; split.
      * discriminate.
      * intros [Hn Hk]. destruct Hwhy; contradiction.
      * intros _. exact Hwhy.
      * reflexivity.
    + rewrite Es in Hn. rewrite Ek in Hk.
      eexists. split; [reflexivity|]. simpl. split; [auto|].
      intros e0 [= <-]. split; split.
      * auto.
      * reflexivity.
      * discriminate.
      * intros [H | H]; contradiction.
  - rewrite (post_user_no_email req p He).
    eexists. split; [reflexivity|]. simpl. split; [auto|]. discriminate.
Qed.

(** X10: when POST /user answers 409 the address of the request is stored
    all the same (there is no rollback), while users and links are as
    before; if the address was new and every link resolved, it is now a
    stored address that no link names. *)
Theorem post_user_conflict_keeps_address (req : Body) (p : Pool) :
  let k := request_address_key md5 req in
  let '(r, p') := post_user md5 sha256 req p in
  forall resp, r = Return resp -> status resp = 409 ->
    resp = mkResponse 409 (JsonError "Email already exists")
    /\ stored_address (tables p') k <> None
    /\ user_tbl (tables p') = user_tbl (tables p)
    /\ user_address_link_tbl (tables p') = user_address_link_tbl (tables p)
    /\ (stored_address (tables p) k = None ->
          address_tbl (tables p')
          = (address_tbl (tables p) ++ [address_row md5 (request_address md5 req)])%list
          /\ (links_resolve (tables p) = true -> linked (tables p') k = false)).
Proof.
  intros k. destruct (b_email req) as [e|] eqn:He.
  - destruct (createAddress_result (request_address md5 req) p)
      as (arow & p1 & Ha & Hst & Hu & Hl & _ & Hnew).
    rewrite (post_user_email req e p p1 (Some arow) He Ha).
    destruct (createUser_result (Some (email_key sha256 e)) (b_first_name req)
                (b_last_name req) e p1)
      as [(urow & p2 & -> & _) | (p2 & -> & Ht & _)].
    + intros resp [= <-]. discriminate.
    + intros resp [= <-] _. simpl. rewrite Ht.
      split; [reflexivity|].
      change (createAddressHash md5 (request_address md5 req)) with k in Hst, Hnew.
      split; [congruence|]. split; [exact Hu|]. split; [exact Hl|].
      intros Hk. split; [now apply Hnew|]. intros Hres.
      unfold linked. rewrite Hl.
      destruct (existsb _ (user_address_link_tbl (tables p))) eqn:E; [|reflexivity].
      exfalso. apply existsb_exists in E. destruct E as (l & Hin & Hlk).
      apply String.eqb_eq in Hlk.
      destruct (proj1 (links_resolve_spec _) Hres l Hin)
        as [_ (a & Hain & Hak)].
      unfold stored_address in Hk.
      pose proof (find_none _ _ Hk a Hain) as Hf. simpl in Hf.
      rewrite Hak, Hlk in Hf. now rewrite String.eqb_refl in Hf.
  - rewrite (post_user_no_email req p He). intros resp [= <-]. discriminate.
Qed.

Lemma post_user_created_run (req : Body) (p : Pool) (e : string) :
  b_email req = Some e ->
  stored_user (tables p) (Some e) <> None
  \/ stored_user_by_key (tables p) (email_key sha256 e) = None ->
  let '(r, p') := post_user md5 sha256 req p in
  exists urow arow,
    r = Return (mkResponse 201 (JsonCreated urow (Some arow) None))
    /\ stored_user (tables p') (Some e) = Some urow
    /\ stored_address (tables p') (request_address_key md5 req) = Some arow
    /\ In (mkLinkRow (email_key sha256 e) (request_address_key md5 req))
          (user_address_link_tbl (tables p'))
    /\ (forall old, stored_user (tables p) (Some e) = Some old -> urow = old)
    /\ (stored_user (tables p) (Some e) = None ->
          urow = user_row sha256 (b_first_name req) (b_last_name req) e).
Proof.
  intros He Hwhy.
  destruct (createAddress_result (request_address md5 req) p)
    as (arow & p1 & Ha & Hst & Hu & _).
  rewrite (post_user_email req e p p1 (Some arow) He Ha).
  destruct (stored_user_same (tables p) (tables p1) (Some e)
              (email_key sha256 e) Hu) as [Es Ek].
  destruct (createUser_result (Some (email_key sha256 e)) (b_first_name req)
              (b_last_name req) e p1)
    as [(urow & p2 & -> & Hsu & Hau & Hlu & _ & Hold & Hfresh)
       | (p2 & -> & _ & Hn & Hk)].
  - exists urow, arow. split; [reflexivity|].
    rewrite createUserAddressLink_run. cbn [snd tables].
    set (row := mkLinkRow _ _).
    assert (Hin : In row (user_address_link_tbl
              (if existsb (same_link row) (user_address_link_tbl (tables p2))
               then tables p2
               else mkDatabase (address_tbl (tables p2)) (user_tbl (tables p2))
                      (user_address_link_tbl (tables p2) ++ [row])))).
    { destruct (existsb _ _) eqn:E.
      - now apply existsb_same_link.
      - simpl. apply in_or_app. right. now left. }
    assert (Hsame : forall db : Database,
              db = (if existsb (same_link row) (user_address_link_tbl (tables p2))
                    then tables p2
                    else mkDatabase (address_tbl (tables p2)) (user_tbl (tables p2))
                           (user_address_link_tbl (tables p2) ++ [row])) ->
              user_tbl db = user_tbl (tables p2)
              /\ address_tbl db = address_tbl (tables p2)).
    { intros db ->. now destruct (existsb _ _). }
    destruct (Hsame _ eq_refl) as [Hu3 Ha3].
    split; [unfold stored_user in *; now rewrite Hu3|].
    split.
    { unfold stored_address in *. rewrite Ha3, Hau. exact Hst. }
    split; [exact Hin|]. split.
    + intros old Hold'. rewrite <- Es in Hold'. now apply Hold.
    + intros Hn. rewrite <- Es in Hn. now apply Hfresh.
  - rewrite Es in Hn. rewrite Ek in Hk. destruct Hwhy; contradiction.
Qed.

Lemma post_user_conflict_run (req : Body) (p : Pool) (e : string) :
  b_email req = Some e ->
  stored_user (tables p) (Some e) = None ->
  stored_user_by_key (tables p) (email_key sha256 e) <> None ->
  exists p',
    post_user md5 sha256 req p
    = (Return (mkResponse 409 (JsonError "Email already exists")), p')
    /\ stored_address (tables p') (request_address_key md5 req) <> None
    /\ user_tbl (tables p') = user_tbl (tables p)
    /\ user_address_link_tbl (tables p') = user_address_link_tbl (tables p)
    /\ (stored_address (tables p) (request_address_key md5 req) <> None ->
          tables p' = tables p).
Proof.
  intros He Hn Hk.
  destruct (createAddress_result (request_address md5 req) p)
    as (arow & p1 & Ha & Hst & Hu & Hl & Hsame & _).
  rewrite (post_user_email req e p p1 (Some arow) He Ha).
  destruct (stored_user_same (tables p) (tables p1) (Some e)
              (email_key sha256 e) Hu) as [Es Ek].
  destruct (createUser_result (Some (email_key sha256 e)) (b_first_name req)
              (b_last_name req) e p1)
    as [(urow & p2 & -> & _ & _ & _ & Hwhy & _) | (p2 & -> & Ht & _)].
  - rewrite Es, Ek in Hwhy. destruct Hwhy; contradiction.
  - eexists. split; [reflexivity|]. rewrite Ht.
    change (createAddressHash md5 (request_address md5 req))
      with (request_address_key md5 req) in Hst, Hsame.
    repeat split; auto. congruence.
Qed.

(** X11: when POST /user answers 201, the request had an email, and the
    answer carries a user row and an address row (and no link row, the
    link INSERT returning nothing); afterwards that user is the one stored
    for the email, that address the one stored under the key of the
    request's fields, and the link of the two keys is in the link table. A
    user stored before is returned as it was (the names of the request
    are dropped); otherwise the user of the request is. *)
Theorem post_user_created (req : Body) (p : Pool) :
  let '(r, p') := post_user md5 sha256 req p in
  forall resp, r = Return resp -> status resp = 201 ->
    exists e urow arow,
      b_email req = Some e
      /\ resp = mkResponse 201 (JsonCreated urow (Some arow) None)
      /\ stored_user (tables p') (Some e) = Some urow
      /\ stored_address (tables p') (request_address_key md5 req) = Some arow
      /\ In (mkLinkRow (email_key sha256 e) (request_address_key md5 req))
            (user_address_link_tbl (tables p'))
      /\ (forall old, stored_user (tables p) (Some e) = Some old -> urow = old)
      /\ (stored_user (tables p) (Some e) = None ->
            urow = user_row sha256 (b_first_name req) (b_last_name req) e).
Proof.
  destruct (b_email req) as [e|] eqn:He.
  - assert (Hcases : (stored_user (tables p) (Some e) <> None
                      \/ stored_user_by_key (tables p) (email_key sha256 e) = None)
                     \/ (stored_user (tables p) (Some e) = None
                         /\ stored_user_by_key (tables p) (email_key sha256 e)
                            <> None)).
    { destruct (stored_user (tables p) (Some e)); [left; left; discriminate|].
      destruct (stored_user_by_key (tables p) (email_key sha256 e));
        [right; split; [reflexivity | discriminate] | left; now right]. }
    destruct Hcases as [Hwhy | [Hn Hk]].
    + pose proof (post_user_created_run req p e He Hwhy) as H.
      destruct (post_user md5 sha256 req p) as [r p'].
      destruct H as (urow & arow & -> & H).
      intros resp [= <-] _. exists e, urow, arow. auto.
    + destruct (post_user_conflict_run req p e He Hn Hk) as (p' & -> & _).
      intros resp [= <-]. discriminate.
  - rewrite (post_user_no_email req p He). intros resp [= <-]. discriminate.
Qed.

Lemma post_user_settled (req : Body) (p : Pool) (e : string)
    (urow : UserRow) (arow : AddressRow) :
  b_email req = Some e ->
  stored_user (tables p) (Some e) = Some urow ->
  stored_address (tables p) (request_address_key md5 req) = Some arow ->
  In (mkLinkRow (email_key sha256 e) (request_address_key md5 req))
     (user_address_link_tbl (tables p)) ->
  exists p',
    post_user md5 sha256 req p
    = (Return (mkResponse 201 (JsonCreated urow (Some arow) None)), p')
    /\ tables p' = tables p.
Proof.
  intros He Hu Ha Hl.
  rewrite (post_user_email req e p _ (Some arow) He
             (createAddress_found md5 (request_address md5 req) p arow Ha)).
  rewrite (createUser_found sha256 _ _ _ e _ urow) by exact Hu.
  eexists. split; [reflexivity|].
  rewrite createUserAddressLink_run. cbn [snd tables].
  now rewrite (proj2 (existsb_same_link _ _) Hl).
Qed.

(** X12: POST /user is idempotent: the same request sent twice in a row
    gets the same answer both times (201, 409 or 500 alike), and the
    second one changes no table. *)
Theorem post_user_twice (req : Body) (p : Pool) :
  let '(r1, p1) := post_user md5 sha256 req p in
  let '(r2, p2) := post_user md5 sha256 req p1 in
  r2 = r1 /\ tables p2 = tables p1.
Proof.
  destruct (b_email req) as [e|] eqn:He.
  - assert (Hdone : forall p1 urow arow,
              stored_user (tables p1) (Some e) = Some urow ->
              stored_address (tables p1) (request_address_key md5 req) = Some arow ->
              In (mkLinkRow (email_key sha256 e) (request_address_key md5 req))
                 (user_address_link_tbl (tables p1)) ->
              let '(r2, p2) := post_user md5 sha256 req p1 in
              r2 = Return (mkResponse 201 (JsonCreated urow (Some arow) None))
              /\ tables p2 = tables p1).
    { intros p1 urow arow Hu Ha Hl.
      destruct (post_user_settled req p1 e urow arow He Hu Ha Hl)
        as (p2 & -> & Ht). split; [reflexivity | exact Ht]. }
    destruct (stored_user (tables p) (Some e)) as [old|] eqn:Hs.
    + assert (Hwhy : stored_user (tables p) (Some e) <> None
                     \/ stored_user_by_key (tables p) (email_key sha256 e) = None)
        by (left; rewrite Hs; discriminate).
      pose proof (post_user_created_run req p e He Hwhy) as H.
      destruct (post_user md5 sha256 req p) as [r1 p1].
      destruct H as (urow & arow & -> & Hu & Ha & Hl & _).
      exact (Hdone p1 urow arow Hu Ha Hl).
    + destruct (stored_user_by_key (tables p) (email_key sha256 e))
        as [other|] eqn:Hk.
      * assert (Hk' : stored_user_by_key (tables p) (email_key sha256 e) <> None)
          by (rewrite Hk; discriminate).
        destruct (post_user_conflict_run req p e He Hs Hk')
          as (p1 & -> & Ha & Hu & _).
        destruct (stored_user_same (tables p) (tables p1) (Some e)
                    (email_key sha256 e) Hu) as [Es Ek].
        rewrite <- Es in Hs. rewrite <- Ek in Hk'.
        destruct (post_user_conflict_run req p1 e He Hs Hk')
          as (p2 & -> & _ & _ & _ & Ht).
        split; [reflexivity | exact (Ht Ha)].
      * pose proof (post_user_created_run req p e He (or_intror Hk)) as H.
        destruct (post_user md5 sha256 req p) as [r1 p1].
        destruct H as (urow & arow & -> & Hu & Ha & Hl & _).
        exact (Hdone p1 urow arow Hu Ha Hl).
  - rewrite (post_user_no_email req p He). cbv beta iota.
    now rewrite (post_user_no_email req p He).
Qed.

(** The pool after POST /user: untouched without an email; otherwise the
    pool after the address and user steps, and after the link step when
    the user step resolved. *)
Lemma post_user_steps (req : Body) (p : Pool) :
  (b_email req = None /\ snd (post_user md5 sha256 req p) = p)
  \/ exists e p1 p2,
       b_email req = Some e
       /\ p1 = snd (createAddress md5 (request_address md5 req) p)
       /\ p2 = snd (createUser sha256
                      (mkUser (Some (email_key sha256 e)) (b_first_name req)
                              (b_last_name req) (Some e)) p1)
       /\ (snd (post_user md5 sha256 req p) = p2
           \/ (snd (post_user md5 sha256 req p)
               = snd (createUserAddressLink (email_key sha256 e)
                        (request_address_key md5 req) p2)
               /\ stored_user (tables p2) (Some e) <> None
               /\ stored_address (tables p2) (request_address_key md5 req)
                  <> None)).
Proof.
  destruct (b_email req) as [e|] eqn:He.
  - right.
    destruct (createAddress_result (request_address md5 req) p)
      as (arow & p1 & Ha & Hst & _).
    rewrite (post_user_email req e p p1 (Some arow) He Ha).
    exists e, p1. eexists. split; [reflexivity|].
    split; [now rewrite Ha|]. split; [reflexivity|].
    destruct (createUser_result (Some (email_key sha256 e)) (b_first_name req)
                (b_last_name req) e p1)
      as [(urow & p2 & -> & Hsu & Hau & _) | (p2 & -> & _)].
    + right. cbn [snd]. split; [reflexivity|]. split; [congruence|].
      unfold stored_address in *. rewrite Hau.
      change (createAddressHash md5 (request_address md5 req))
        with (request_address_key md5 req) in Hst.
      rewrite Hst. discriminate.
    + left. reflexivity.
  - left. rewrite (post_user_no_email req p He). auto.
Qed.

Lemma stored_key_of_email (db : Database) (e : string) :
  content_addressed md5 sha256 db = true ->
  stored_user db (Some e) <> None ->
  stored_user_by_key db (email_key sha256 e) <> None.
Proof.
  intros Hca Hs. destruct (stored_user db (Some e)) as [u|] eqn:Hu;
    [clear Hs | now destruct Hs].
  unfold stored_user in Hu. apply find_some in Hu. destruct Hu as [Hin Hmail].
  destruct (content_addressed_user md5 sha256 db u Hca Hin) as (e' & He' & Hk).
  rewrite He' in Hmail. simpl in Hmail. apply String.eqb_eq in Hmail. subst e'.
  intros Hnone. unfold stored_user_by_key in Hnone.
  pose proof (find_none _ _ Hnone u Hin) as Hf. simpl in Hf.
  unfold email_key in Hf. rewrite Hk in Hf. now rewrite String.eqb_refl in Hf.
Qed.

Lemma consistent_parts (db : Database) :
  consistent md5 sha256 db = true <->
  schema_ok db = true /\ content_addressed md5 sha256 db = true
  /\ links_resolve db = true.
Proof. unfold consistent. rewrite !andb_true_iff. tauto. Qed.

Lemma post_user_consistent (req : Body) :
  preserves (consistent md5 sha256) (post_user md5 sha256 req).
Proof.
  intros p H.
  destruct (post_user_steps req p)
    as [[_ ->] | (e & p1 & p2 & _ & E1 & E2 & Hp)]; [exact H|].
  apply consistent_parts in H. destruct H as (Hs & Hc & Hl).
  assert (H1 : schema_ok (tables p1) = true
               /\ content_addressed md5 sha256 (tables p1) = true
               /\ links_resolve (tables p1) = true).
  { subst p1. split; [|split].
    - now apply createAddress_schema.
    - now apply createAddress_content.
    - now apply createAddress_links. }
  destruct H1 as (Hs1 & Hc1 & Hl1).
  assert (H2 : schema_ok (tables p2) = true
               /\ content_addressed md5 sha256 (tables p2) = true
               /\ links_resolve (tables p2) = true).
  { rewrite E2. split; [|split].
    - now apply createUser_schema.
    - now apply createUser_content.
    - now apply createUser_links. }
  destruct H2 as (Hs2 & Hc2 & Hl2).
  apply consistent_parts.
  destruct Hp as [-> | (-> & Hu & Ha)]; [auto|].
  split; [|split].
  - now apply createUserAddressLink_schema.
  - now apply createUserAddressLink_content.
  - apply createUserAddressLink_links; auto.
    now apply stored_key_of_email.
Qed.

Lemma snd_await_resolve {A B : Type} (m : Promise A) (f : A -> B) (p : Pool) :
  snd ((x <- m ;; resolve (f x)) p) = snd (m p).
Proof. unfold await, resolve. now destruct (m p) as [[a | x] p']. Qed.

(** X13: the data stay consistent under every route, for requests whose
    fields are strings or missing: when the tables respect the schema's
    uniqueness constraints, every row is stored under the hash of its
    content and every link names a stored user and a stored address, the
    same holds after POST, DELETE, PUT and GET /user with such a request,
    whatever the answer. *)
Theorem routes_keep_consistent (req : Body) (p : Pool) :
  consistent md5 sha256 (tables p) = true ->
  consistent md5 sha256 (tables (snd (post_user md5 sha256 req p))) = true
  /\ consistent md5 sha256 (tables (snd (delete_user req p))) = true
  /\ consistent md5 sha256 (tables (snd (put_user req p))) = true
  /\ consistent md5 sha256 (tables (snd (get_user req p))) = true.
Proof.
  intros H. split; [now apply post_user_consistent|].
  unfold delete_user, put_user, get_user. rewrite !snd_await_resolve.
  pose proof (proj1 (consistent_parts _) H) as (Hs & Hc & Hl).
  split; [|split].
  - apply consistent_parts. split; [|split].
    + now apply deleteUserAddressByEmail_schema.
    + now apply deleteUserAddressByEmail_content.
    + now apply deleteUserAddressByEmail_links.
  - apply consistent_parts. split; [|split].
    + now apply updateUser_schema.
    + now apply updateUser_content.
    + now apply updateUser_links.
  - unfold getUserAddress. rewrite snd_await_resolve. exact H.
Qed.

Lemma getUserAddress_some (p : Pool) (e : jsstring) (u : UserRow) (l : LinkRow)
    (a : AddressRow) :
  chain (tables p) e u l a ->
  exists row u' l' a',
    getUserAddress e p = (Return (Some row), p)
    /\ chain (tables p) e u' l' a' /\ row = join_row u' l' a'.
Proof.
  intros Hc. unfold getUserAddress, await, resolve.
  destruct (select_user_address_rows e p) as (rows & -> & Hin).
  destruct rows as [|row rows].
  - exfalso. apply (proj2 (Hin (join_row u l a))). eauto.
  - destruct (proj1 (Hin row) (or_introl eq_refl)) as (u' & l' & a' & Hc' & ->).
    exists (join_row u' l' a'), u', l', a'. auto.
Qed.

Lemma get_user_after_created (req : Body) (p1 : Pool) (e : string)
    (urow : UserRow) (arow : AddressRow) :
  content_addressed md5 sha256 (tables p1) = true ->
  b_email req = Some e ->
  stored_user (tables p1) (Some e) = Some urow ->
  stored_address (tables p1) (request_address_key md5 req) = Some arow ->
  In (mkLinkRow (email_key sha256 e) (request_address_key md5 req))
     (user_address_link_tbl (tables p1)) ->
  exists row,
    get_user req p1 = (Return (mkResponse 200 (JsonUserAddress (Some row))), p1)
    /\ ua_email row = Some e
    /\ ua_user_key row = email_key sha256 e.
Proof.
  intros Hca He Hu Ha Hl.
  assert (Hmail : forall u, In u (user_tbl (tables p1)) ->
            sql_eq (email u) (Some e) = true ->
            email u = Some e /\ user_key u = email_key sha256 e).
  { intros u Hin Hue.
    destruct (content_addressed_user md5 sha256 _ u Hca Hin) as (e' & He' & Hk').
    rewrite He' in Hue. simpl in Hue. apply String.eqb_eq in Hue. subst e'.
    auto. }
  unfold stored_user in Hu. apply find_some in Hu. destruct Hu as [Huin Hue].
  unfold stored_address in Ha. apply find_some in Ha.
  destruct Ha as [Hain Hak]. apply String.eqb_eq in Hak.
  destruct (Hmail urow Huin Hue) as [_ Hkey].
  destruct (getUserAddress_some p1 (Some e) urow
              (mkLinkRow (email_key sha256 e) (request_address_key md5 req)) arow)
    as (row & u' & l' & a' & Hget & Hc' & ->).
  { unfold chain. simpl. repeat split; auto. }
  exists (join_row u' l' a').
  unfold get_user, await. rewrite He, Hget. split; [reflexivity|].
  destruct Hc' as (Hu'in & _ & _ & Hu'e & Hu'l & _).
  destruct (Hmail u' Hu'in Hu'e) as [Hm Hk]. simpl.
  split; [exact Hm | now rewrite <- Hu'l].
Qed.

(** X14: on content-addressed rows, after POST /user has answered 201, a
    GET /user with the same request answers 200 with a row (not null),
    which carries the email of the request and the key of that email, and
    changes nothing. *)
Theorem post_then_get (req : Body) (p : Pool) :
  content_addressed md5 sha256 (tables p) = true ->
  let '(r1, p1) := post_user md5 sha256 req p in
  forall resp, r1 = Return resp -> status resp = 201 ->
    exists e row,
      b_email req = Some e
      /\ get_user req p1
         = (Return (mkResponse 200 (JsonUserAddress (Some row))), p1)
      /\ ua_email row = Some e
      /\ ua_user_key row = email_key sha256 e.
Proof.
  intros Hca.
  assert (Hca1 : content_addressed md5 sha256
                   (tables (snd (post_user md5 sha256 req p))) = true).
  { destruct (post_user_steps req p)
      as [[_ ->] | (e & p1 & p2 & _ & E1 & E2 & Hp)]; [exact Hca|].
    assert (H2 : content_addressed md5 sha256 (tables p2) = true).
    { rewrite E2. apply createUser_content. rewrite E1.
      now apply createAddress_content. }
    destruct Hp as [-> | (-> & _)]; [exact H2|].
    now apply createUserAddressLink_content. }
  destruct (b_email req) as [e|] eqn:He.
  - assert (Hcases : (stored_user (tables p) (Some e) <> None
                      \/ stored_user_by_key (tables p) (email_key sha256 e) = None)
                     \/ (stored_user (tables p) (Some e) = None
                         /\ stored_user_by_key (tables p) (email_key sha256 e)
                            <> None)).
    { destruct (stored_user (tables p) (Some e)); [left; left; discriminate|].
      destruct (stored_user_by_key (tables p) (email_key sha256 e));
        [right; split; [reflexivity | discriminate] | left; now right]. }
    destruct Hcases as [Hwhy | [Hn Hk]].
    + pose proof (post_user_created_run req p e He Hwhy) as H.
      destruct (post_user md5 sha256 req p) as [r1 p1]. cbn [snd] in Hca1.
      destruct H as (urow & arow & -> & Hu & Ha & Hl & _).
      intros resp _ _. exists e.
      destruct (get_user_after_created req p1 e urow arow Hca1 He Hu Ha Hl)
        as (row & Hget & Hm & Hk).
      exists row. auto.
    + destruct (post_user_conflict_run req p e He Hn Hk) as (p1 & -> & _).
      intros resp [= <-]. discriminate.
  - rewrite (post_user_no_email req p He). intros resp [= <-]. discriminate.
Qed.

(** An SQL comparison with NULL selects no row. *)
Lemma stored_user_null (db : Database) : stored_user db None = None.
Proof.
  unfold stored_user. induction (user_tbl db) as [|r rows IH]; simpl;
    [reflexivity|].
  now destruct (email r).
Qed.

(** X15: DELETE /user always answers 200, with one of the two messages of
    the cascade; it says "User not found", and changes no table, for a
    request without email and whenever no user with a non-empty key is
    stored for the email; it says the data were deleted exactly when such
    a user is stored. *)
Theorem delete_user_answers (req : Body) (p : Pool) :
  let '(r, p') := delete_user req p in
  exists m,
    r = Return (mkResponse 200 (JsonMessage m))
    /\ (m = msg_not_found \/ m = msg_deleted)
    /\ (m = msg_not_found -> tables p' = tables p)
    /\ (b_email req = None -> m = msg_not_found)
    /\ (m = msg_deleted <->
          exists u, stored_user (tables p) (b_email req) = Some u
                    /\ user_key u <> "").
Proof.
  unfold delete_user, await, resolve.
  destruct (stored_user (tables p) (b_email req)) as [u|] eqn:Hu.
  - destruct (String.eqb_spec (user_key u) "") as [Hk | Hk].
    + rewrite (delete_falsy_key _ p u Hu Hk). eexists. split; [reflexivity|].
      split; [now left|]. split; [reflexivity|]. split; [reflexivity|].
      split; [discriminate|]. intros (u' & [= <-] & Hne). contradiction.
    + rewrite (delete_found _ p u Hu Hk). eexists. split; [reflexivity|].
      split; [now right|]. split; [discriminate|]. split.
      * intros Hnone. rewrite Hnone, stored_user_null in Hu. discriminate Hu.
      * split; [eauto | reflexivity].
  - rewrite (delete_no_user _ p Hu). eexists. split; [reflexivity|].
    split; [now left|]. split; [reflexivity|]. split; [reflexivity|].
    split; [discriminate|]. intros (u' & H & _). discriminate H.
Qed.

(** X16: PUT /user has no error mapping: it never answers with an error
    status. With an input missing or empty the handler is left by the
    rejection "Missing required fields" before anything reaches the
    database, with no stored user by "User not found", in both cases
    without an answer; when it answers, it answers 200 with the three
    inputs, all given, for a stored email. *)
Theorem put_user_answers (req : Body) (p : Pool) :
  let e := b_email req in
  let fn := b_first_name req in
  let ln := b_last_name req in
  let '(r, p') := put_user req p in
  (all_given e fn ln = false ->
     r = Throw (Error "Missing required fields") /\ p' = p)
  /\ (all_given e fn ln = true -> stored_user (tables p) e = None ->
        r = Throw (Error "User not found") /\ tables p' = tables p)
  /\ (forall resp, r = Return resp ->
        resp = mkResponse 200 (JsonUpdated (mkUpdatedUser e fn ln))
        /\ all_given e fn ln = true /\ stored_user (tables p) e <> None)
  /\ (all_given e fn ln = true -> stored_user (tables p) e <> None ->
        r = Return (mkResponse 200 (JsonUpdated (mkUpdatedUser e fn ln)))).
Proof.
  intros e fn ln. unfold put_user, await, resolve. fold e fn ln.
  destruct (all_given e fn ln) eqn:Hg.
  - rewrite (updateUser_given e fn ln p Hg).
    destruct (stored_user (tables p) e) as [u|] eqn:Hu.
    + split; [discriminate|]. split; [discriminate|]. split.
      * intros resp [= <-]. split; [reflexivity|]. split; [reflexivity|].
        discriminate.
      * reflexivity.
    + split; [discriminate|]. split; [auto|]. split; [discriminate|].
      intros _ H. now destruct H.
  - rewrite (updateUser_missing e fn ln p Hg).
    split; [auto|]. split; [discriminate|]. split; discriminate.
Qed.

End RouteProperties.

(** ** Runs of the service and of the routes on the sample data *)

(** X1: linking Alice to her own address again changes nothing. *)
Lemma createUserAddressLink_idempotent_witness :
  let p1 := snd (createUserAddressLink (user_key alice) (address_key own_address)
                   (fresh sample_db)) in
  tables p1 = sample_db
  /\ tables (snd (createUserAddressLink (user_key alice)
                    (address_key own_address) p1)) = tables p1.
Proof.
  pose proof (createUserAddressLink_idempotent (fresh sample_db)
                (user_key alice) (address_key own_address)) as H.
  revert H. vm_compute. intros (_ & _ & _ & H2 & _ & H1 & _).
  split; [apply H1; left; reflexivity | exact H2].
Defined.

(** X2: Alice has an address; Carol, who is not stored, has none. *)
Lemma getUserAddress_chain_witness :
  (exists row,
      fst (getUserAddress (Some "alice@example.com") (fresh sample_db))
      = Return (Some row)
      /\ sql_eq (ua_email row) (Some "alice@example.com") = true)
  /\ fst (getUserAddress (Some "carol@example.com") (fresh sample_db))
     = Return None.
Proof.
  split.
  - pose proof (getUserAddress_chain (fresh sample_db)
                  (Some "alice@example.com")) as H.
    destruct (getUserAddress _ _) as [r p'] eqn:E.
    vm_compute in E. injection E as <- <-.
    destruct H as (_ & _ & H & _). eexists. split; [reflexivity|].
    apply (H _ eq_refl).
  - pose proof (getUserAddress_chain (fresh sample_db)
                  (Some "carol@example.com")) as H.
    destruct (getUserAddress _ _) as [r p']. simpl.
    destruct H as (_ & H & _). apply H.
    intros u l a (Hu & _ & _ & He & _).
    simpl in Hu. destruct Hu as [<- | [<- | []]]; discriminate He.
Defined.

(** X3: after Alice is deleted, neither lookup finds her. *)
Lemma delete_then_lookup_witness :
  let p1 := snd (deleteUserAddressByEmail (Some "alice@example.com")
                   (fresh sample_db)) in
  fst (getUserByEmail (Some "alice@example.com") p1) = Return None
  /\ fst (getUserAddress (Some "alice@example.com") p1) = Return None.
Proof.
  pose proof (delete_then_lookup (fresh sample_db) (Some "alice@example.com")
                eq_refl) as H.
  revert H. vm_compute. intros H.
  destruct (H eq_refl) as (H1 & H2 & _). split; assumption.
Defined.

(** X4: Bob is renamed, and looked up. *)
Lemma updateUser_then_lookup_witness :
  let p1 := snd (updateUser (Some "bob@example.com") (Some "Rob") (Some "Burr")
                   (fresh sample_db)) in
  fst (getUserByEmail (Some "bob@example.com") p1)
  = Return (Some (mkUserRow (user_key bob) (Some "Rob") (Some "Burr") (email bob))).
Proof.
  pose proof (updateUser_then_lookup (fresh sample_db) (Some "bob@example.com")
                (Some "Rob") (Some "Burr") bob eq_refl eq_refl) as H.
  revert H. vm_compute. intros (_ & H & _). exact H.
Defined.

(** X5: the schema holds of the sample data after John is created. *)
Lemma service_keeps_schema_witness :
  schema_ok (tables (snd (createUser sample_digest john (fresh sample_db)))) = true.
Proof.
  exact (proj1 (proj2 (service_keeps_schema sample_digest sample_digest
                         (fresh sample_db) eq_refl)) john).
Defined.

(** X6: the sample rows stay content addressed when Bob is renamed. *)
Lemma service_keeps_content_addressing_witness :
  content_addressed sample_digest sample_digest
    (tables (snd (updateUser (Some "bob@example.com") (Some "Rob") (Some "Burr")
                    (fresh sample_db)))) = true.
Proof.
  apply (service_keeps_content_addressing sample_digest sample_digest
           (fresh sample_db) eq_refl).
Defined.

(** X7: the sample links resolve after Alice is deleted, and after Bob is
    linked to the address that nobody linked. *)
Lemma service_keeps_links_resolving_witness :
  links_resolve (tables (snd (deleteUserAddressByEmail (Some "alice@example.com")
                                (fresh sample_db)))) = true
  /\ links_resolve
       (tables (snd (createUserAddressLink (user_key bob)
                       (address_key unlinked_address) (fresh sample_db)))) = true.
Proof.
  pose proof (service_keeps_links_resolving sample_digest sample_digest
                (fresh sample_db) eq_refl) as (_ & _ & Hd & _ & Hl).
  split; [apply Hd|]. apply Hl; vm_compute; discriminate.
Defined.

(** X8: John's email is stored in another spelling only: a conflict. *)
Lemma createUser_other_spelling_conflicts_witness :
  fst (createUser sample_digest john (fresh other_spelling_db))
  = Throw (Error "Email already exists")
  /\ tables (snd (createUser sample_digest john (fresh other_spelling_db)))
     = other_spelling_db.
Proof.
  apply (createUser_other_spelling_conflicts sample_digest sample_digest
           (fresh other_spelling_db) None (Some "John") (Some "Doe")
           "john.doe@example.com" "John.Doe@Example.com" other_spelling
           eq_refl eq_refl (or_introl eq_refl) eq_refl).
  - discriminate.
  - reflexivity.
Defined.

(** X9: John's request against the other spelling is answered 409, and on
    an empty database 201. *)
Lemma post_user_answers_witness :
  (exists resp,
      fst (post_user sample_digest sample_digest john_request
             (fresh other_spelling_db)) = Return resp
      /\ status resp = 409)
  /\ (exists resp,
        fst (post_user sample_digest sample_digest john_request (fresh empty_db))
        = Return resp
        /\ status resp = 201).
Proof.
  split.
  - pose proof (post_user_answers sample_digest sample_digest john_request
                  (fresh other_spelling_db)) as H.
    destruct (post_user _ _ _ _) as [r p'].
    destruct H as (resp & -> & _ & H). exists resp. split; [reflexivity|].
    apply (proj1 (H _ eq_refl)). split; [reflexivity | discriminate].
  - pose proof (post_user_answers sample_digest sample_digest john_request
                  (fresh empty_db)) as H.
    destruct (post_user _ _ _ _) as [r p'].
    destruct H as (resp & -> & _ & H). exists resp. split; [reflexivity|].
    apply (proj2 (H _ eq_refl)). right. reflexivity.
Defined.

(** X10: John's request against the other spelling: 409, and his address
    is stored with no link to it. *)
Lemma post_user_conflict_keeps_address_witness :
  let p' := snd (post_user sample_digest sample_digest john_request
                   (fresh other_spelling_db)) in
  address_tbl (tables p')
  = [address_row sample_digest (request_address sample_digest john_request)]
  /\ user_tbl (tables p') = [other_spelling]
  /\ user_address_link_tbl (tables p') = []
  /\ linked (tables p') (request_address_key sample_digest john_request) = false.
Proof.
  pose proof (post_user_conflict_keeps_address sample_digest sample_digest
                john_request (fresh other_spelling_db)) as H.
  revert H. vm_compute. intros H.
  destruct (H _ eq_refl eq_refl) as (_ & _ & Hu & Hl & Hnew).
  destruct (Hnew eq_refl) as [Ha Hno].
  split; [exact Ha|]. split; [exact Hu|]. split; [exact Hl|].
  exact (Hno eq_refl).
Defined.

(** X11: John's request on an empty database: 201, and the three rows. *)
Lemma post_user_created_witness :
  let '(r, p') := post_user sample_digest sample_digest john_request
                    (fresh empty_db) in
  exists urow arow,
    r = Return (mkResponse 201 (JsonCreated urow (Some arow) None))
    /\ user_tbl (tables p') = [urow]
    /\ address_tbl (tables p') = [arow]
    /\ user_address_link_tbl (tables p')
       = [mkLinkRow (user_key urow) (address_key arow)].
Proof.
  pose proof (post_user_created sample_digest sample_digest john_request
                (fresh empty_db)) as H.
  revert H. vm_compute. intros H.
  destruct (H _ eq_refl eq_refl) as (e & urow & arow & _ & Hr & _).
  injection Hr as <- <-. do 2 eexists. repeat split.
Defined.

(** X13: the sample data are consistent, and stay so under a POST. *)
Lemma routes_keep_consistent_witness :
  consistent sample_digest sample_digest
    (tables (snd (post_user sample_digest sample_digest john_request
                    (fresh sample_db)))) = true.
Proof.
  apply (routes_keep_consistent sample_digest sample_digest john_request
           (fresh sample_db) eq_refl).
Defined.

(** X14: John is posted on an empty database, then read back. *)
Lemma post_then_get_witness :
  let p1 := snd (post_user sample_digest sample_digest john_request
                   (fresh empty_db)) in
  exists row,
    fst (get_user john_request p1)
    = Return (mkResponse 200 (JsonUserAddress (Some row)))
    /\ ua_email row = Some "john.doe@example.com".
Proof.
  pose proof (post_then_get sample_digest sample_digest john_request
                (fresh empty_db) eq_refl) as H.
  revert H. vm_compute. intros H.
  destruct (H _ eq_refl eq_refl) as (e & row & He & Hget & Hm & _).
  injection He as <-. injection Hget as <-.
  eexists. split; reflexivity.
Defined.

(** X15: DELETE without an email finds nobody and changes nothing. *)
Lemma delete_user_answers_witness :
  delete_user no_email_request (fresh sample_db)
  = (Return (mkResponse 200 (JsonMessage msg_not_found)),
     mkPool sample_db [SelectUserKeyByEmail None]).
Proof.
  pose proof (delete_user_answers no_email_request (fresh sample_db)) as H.
  revert H. vm_compute. intros (m & Hr & _ & _ & Hm & _).
  rewrite Hr, (Hm eq_refl). reflexivity.
Defined.

(** X16: the spec's two failing updates leave the handler unanswered; a
    good one is answered 200. *)
Lemma put_user_answers_witness :
  fst (put_user (mkBody (Some "") (Some "Doe") (Some "a@b.com") None None None None)
         (fresh sample_db))
  = Throw (Error "Missing required fields")
  /\ fst (put_user (mkBody (Some "A") (Some "B") (Some "missing@b.com")
                           None None None None) (fresh sample_db))
     = Throw (Error "User not found")
  /\ fst (put_user (mkBody (Some "Rob") (Some "Burr") (Some "bob@example.com")
                           None None None None) (fresh sample_db))
     = Return (mkResponse 200
                 (JsonUpdated (mkUpdatedUser (Some "bob@example.com")
                                 (Some "Rob") (Some "Burr")))).
Proof.
  split; [|split].
  - pose proof (put_user_answers
                  (mkBody (Some "") (Some "Doe") (Some "a@b.com") None None None None)
                  (fresh sample_db)) as H.
    cbv zeta in H. destruct (put_user _ _) as [r p']. simpl.
    destruct H as (H & _). now apply H.
  - pose proof (put_user_answers
                  (mkBody (Some "A") (Some "B") (Some "missing@b.com")
                          None None None None) (fresh sample_db)) as H.
    cbv zeta in H. destruct (put_user _ _) as [r p']. simpl.
    destruct H as (_ & H & _). now apply H.
  - pose proof (put_user_answers
                  (mkBody (Some "Rob") (Some "Burr") (Some "bob@example.com")
                          None None None None) (fresh sample_db)) as H.
    cbv zeta in H. destruct (put_user _ _) as [r p']. simpl.
    destruct H as (_ & _ & _ & H). apply H; [reflexivity | discriminate].
Defined.
